(** * Filter-preset derivation engine (src/lib/preset-utils.ts)

    A shallow embedding of the preset utilities of the market dashboard:
    the two geography rankings (by aggregated market value and by average
    CAGR), the hierarchy resolver for first-level segments and the three
    preset builders, followed by the properties of the engine.

    Conventions of the embedding.
    - A JavaScript number is an exact rational ([Q]); the one non-numeric
      value the code tests for, NaN, is a constructor of its own
      ([number]).  Rounding of binary floating point is abstracted.
    - A property that may be absent ([undefined] or [null]) is an [option].
    - A JavaScript object used as a dictionary is the association list of
      its own properties in enumeration order (what [Object.keys] yields);
      a [Map] is the association list of its entries in insertion order.
    - A string is its sequence of code units, one [ascii] each, so that
      the default order of [sort()] is [String.compare].
    - [o[k]] on a dictionary is the lookup of an own property: keys are
      assumed not to collide with the members every object inherits.
    - Reading a property of [undefined] throws a [TypeError]: functions
      that can do so live in the error monad [throws].
    - Console output is not part of the model. *)

From Stdlib Require Import String Ascii List ZArith QArith Lia Bool.
From Stdlib Require Import Sorting.Sorted Sorting.Permutation.
From ExtLib Require Import Structures.Monad Structures.MonadExc.
From ExtLib Require Import Data.Monads.EitherMonad.
Import ListNotations.
Import MonadNotation.

Local Open Scope string_scope.
Local Open Scope Z_scope.
Local Open Scope monad_scope.

(** ** JavaScript primitives used by the engine *)

Module Js.

(** A value of type [number]: either NaN or a finite quantity. *)
Inductive number : Type :=
| NaN : number
| Num (q : Q) : number.

(** [v || 0] for [v : number | undefined]: [undefined], [NaN] and [0] are
    falsy and give [0]. *)
Definition or_zero (v : option number) : Q :=
  match v with
  | Some (Num q) => q
  | Some NaN | None => 0%Q
  end.

(** [v !== undefined && v !== null && !isNaN(v)], returning the number that
    passed the test. *)
Definition valid_number (v : option number) : option Q :=
  match v with
  | Some (Num q) => Some q
  | Some NaN | None => None
  end.

(** Truthiness of a string: only the empty string is falsy. *)
Definition truthy_string (s : string) : bool :=
  match s with
  | EmptyString => false
  | String _ _ => true
  end.

(** The exception raised by a property read on [undefined]. *)
Inductive exn : Type :=
| TypeError : exn.

Definition throws : Type -> Type := sum exn.

(** [o.p] where [o] itself may be absent: throws when it is. *)
Definition deref {A : Type} (o : option A) : throws A :=
  match o with
  | Some a => ret a
  | None => raise TypeError
  end.

(** [a.slice(0, stop)], after ECMAScript: a negative [stop] counts from the
    end, and the bound is clamped to the length. *)
Definition slice0 {A : Type} (a : list A) (stop : Z) : list A :=
  let len := Z.of_nat (length a) in
  let final := if stop <? 0 then Z.max (len + stop) 0 else Z.min stop len in
  firstn (Z.to_nat final) a.

(** [a.sort(cmp)].  The sort of ECMAScript 2019 is stable, and for a
    consistent comparator all stable sorts agree: the model inserts the
    elements from right to left, each one in front of the first element it
    does not have to follow. *)
Section Sort.
Context {A : Type} (cmp : A -> A -> comparison).

Fixpoint insert (x : A) (l : list A) : list A :=
  match l with
  | [] => [x]
  | y :: l' =>
      match cmp x y with
      | Gt => y :: insert x l'
      | _ => x :: l
      end
  end.

Definition sort (l : list A) : list A := fold_right insert [] l.
End Sort.

(** The sign of a numeric comparator result [v], as [sort] reads it. *)
Definition sign (v : Q) : comparison := (v ?= 0)%Q.

(** [a.sort()] on strings: ascending order of code units. *)
Definition sort_strings (l : list string) : list string :=
  sort String.compare l.

(** Own-property lookup [o[k]] in an object. *)
Fixpoint lookup {V : Type} (o : list (string * V)) (k : string) : option V :=
  match o with
  | [] => None
  | (k', v) :: o' => if String.eqb k' k then Some v else lookup o' k
  end.

Definition keys {V : Type} (o : list (string * V)) : list string := map fst o.
Definition values {V : Type} (o : list (string * V)) : list V := map snd o.

(** [Map<string, V>]: entries in insertion order. [set] overwrites the
    value of an existing key in place and appends a new key at the end. *)
Definition Map (V : Type) : Type := list (string * V).

Definition Map_get {V : Type} (m : Map V) (k : string) : option V := lookup m k.

Fixpoint Map_set {V : Type} (m : Map V) (k : string) (v : V) : Map V :=
  match m with
  | [] => [(k, v)]
  | (k', v') :: m' =>
      if String.eqb k' k then (k', v) :: m' else (k', v') :: Map_set m' k v
  end.

(** [s.has(x)] for a [Set<string>] built from a list. *)
Definition Set_has (s : list string) (x : string) : bool :=
  existsb (String.eqb x) s.

End Js.

(** ** Data model *)

(** Modelled from the spec: the type declarations of [./types]
    ([DataRecord], [ComparisonData], [FilterState]) are not among the
    sources.  The records below follow section 3 of the specification and
    the property paths the code reads; every path the code probes for
    presence is optional. *)
Record DataRecord : Type := {
  geography : string;
  time_series : option (list (Z * Js.number));
  cagr : option Js.number
}.

(** [record.time_series?.[year]] *)
Fixpoint year_lookup (ts : list (Z * Js.number)) (year : Z) : option Js.number :=
  match ts with
  | [] => None
  | (y, v) :: ts' => if Z.eqb y year then Some v else year_lookup ts' year
  end.

Record SegmentDimension : Type := {
  items : option (list string);
  hierarchy : option (list (string * list string))
}.

Record Geographies : Type := {
  all_geographies : option (list string)
}.

Record Dimensions : Type := {
  geographies : option Geographies;
  segments : option (list (string * SegmentDimension))
}.

(** The value found at [geography_segment_matrix] when it is truthy: an
    array of records, or something that is not an array. *)
Inductive Matrix : Type :=
| IsArray (records : list DataRecord)
| NotArray.

Record ValueData : Type := {
  geography_segment_matrix : option Matrix
}.

Record DataSection : Type := {
  value : option ValueData
}.

Record ComparisonData : Type := {
  dimensions : option Dimensions;
  data : option DataSection
}.

(** [Partial<FilterState>], restricted to the fields the builders set. *)
Module FilterState.
Record t : Type := {
  viewMode : option string;
  geographies : option (list string);
  segments : option (list string);
  segmentType : option string;
  yearRange : option (Z * Z);
  dataType : option string
}.
End FilterState.

(** ** The engine *)

(** The guard chain
    [!data.data || !data.data.value || !data.data.value.geography_segment_matrix]
    followed by [!Array.isArray(records) || records.length === 0]: the
    records to scan, if any. *)
Definition matrix_records (d : ComparisonData) : option (list DataRecord) :=
  match data d with
  | None => None
  | Some dd =>
      match value dd with
      | None => None
      | Some v =>
          match geography_segment_matrix v with
          | None => None
          | Some NotArray => None
          | Some (IsArray []) => None
          | Some (IsArray records) => Some records
          end
      end
  end.

(** [record.time_series?.[year] || 0] *)
Definition record_value (record : DataRecord) (year : Z) : Q :=
  Js.or_zero (match time_series record with
              | Some ts => year_lookup ts year
              | None => None
              end).

(** Body of the [forEach] of [getTopRegionsByMarketValue]. *)
Definition add_total (year : Z) (geographyTotals : Js.Map Q) (record : DataRecord)
  : Js.Map Q :=
  let geography := geography record in
  let value := record_value record year in
  if String.eqb geography "Global" then geographyTotals
  else
    let currentTotal :=
      match Js.Map_get geographyTotals geography with
      | Some t => t
      | None => 0%Q
      end in
    Js.Map_set geographyTotals geography (currentTotal + value)%Q.

(** The comparator [(a, b) => b[1] - a[1]]. *)
Definition by_value_desc (a b : string * Q) : comparison :=
  Js.sign (snd b - snd a)%Q.

(** [getTopRegionsByMarketValue(data, year, topN)]; the defaults
    [year = 2024] and [topN = 3] are left to the caller. *)
Definition getTopRegionsByMarketValue
  (data : option ComparisonData) (year : Z) (topN : Z) : list string :=
  match data with
  | None => []
  | Some d =>
      match matrix_records d with
      | None => []
      | Some records =>
          let geographyTotals := fold_left (add_total year) records [] in
          map fst (Js.slice0 (Js.sort by_value_desc geographyTotals) topN)
      end
  end.

(** [getTopRegionsByCAGR(data, topN)] *)
Definition getTopRegionsByCAGR
  (data : option ComparisonData) (topN : Z) : list string :=
  match data with
  | None => []
  | Some d =>
      match matrix_records d with
      | None => []
      | Some records =>
          let geographyCAGRs :=
            fold_left
              (fun (geographyCAGRs : Js.Map (list Q)) (record : DataRecord) =>
                 let geography := geography record in
                 if String.eqb geography "Global" then geographyCAGRs
                 else
                   match Js.valid_number (cagr record) with
                   | Some c =>
                       let cagrs :=
                         match Js.Map_get geographyCAGRs geography with
                         | Some l => l
                         | None => []
                         end in
                       Js.Map_set geographyCAGRs geography (cagrs ++ [c])%list
                   | None => geographyCAGRs
                   end)
              records [] in
          match geographyCAGRs with
          | [] => []
          | _ :: _ =>
              let avgCAGRs :=
                map (fun entry : string * list Q =>
                       let (geography, cagrs) := entry in
                       (geography,
                        (fold_left Qplus cagrs 0
                         / inject_Z (Z.of_nat (length cagrs)))%Q))
                    geographyCAGRs in
              map fst
                (Js.slice0
                   (Js.sort (fun a b : string * Q => Js.sign (snd b - snd a)%Q)
                      avgCAGRs)
                   topN)
          end
      end
  end.

(** [getTopCountriesByCAGR(data, topN)] *)
Definition getTopCountriesByCAGR
  (data : option ComparisonData) (topN : Z) : list string :=
  match data with
  | None => []
  | Some d =>
      match matrix_records d with
      | None => []
      | Some records =>
          let geographyCAGRs :=
            fold_left
              (fun (geographyCAGRs : Js.Map (list Q)) (record : DataRecord) =>
                 let geography := geography record in
                 if String.eqb geography "Global" then geographyCAGRs
                 else
                   match Js.valid_number (cagr record) with
                   | Some c =>
                       let cagrs :=
                         match Js.Map_get geographyCAGRs geography with
                         | Some l => l
                         | None => []
                         end in
                       Js.Map_set geographyCAGRs geography (cagrs ++ [c])%list
                   | None => geographyCAGRs
                   end)
              records [] in
          match geographyCAGRs with
          | [] => []
          | _ :: _ =>
              let avgCAGRs :=
                map (fun entry : string * list Q =>
                       let (geography, cagrs) := entry in
                       (geography,
                        (fold_left Qplus cagrs 0
                         / inject_Z (Z.of_nat (length cagrs)))%Q))
                    geographyCAGRs in
              map fst
                (Js.slice0
                   (Js.sort (fun a b : string * Q => Js.sign (snd b - snd a)%Q)
                      avgCAGRs)
                   topN)
          end
      end
  end.

(** [getFirstLevelSegments]: [data.dimensions.segments[segmentType]] reads
    two properties without a guard, so an absent [dimensions] or an absent
    [segments] throws. *)
Definition getFirstLevelSegments
  (data : option ComparisonData) (segmentType : string)
  : Js.throws (list string) :=
  match data with
  | None => ret []
  | Some d =>
      dims <- Js.deref (dimensions d) ;;
      segs <- Js.deref (segments dims) ;;
      match Js.lookup segs segmentType with
      | None => ret []
      | Some segmentDimension =>
          let hierarchy :=
            match hierarchy segmentDimension with
            | Some h => h
            | None => []
            end in
          let allSegments :=
            match items segmentDimension with
            | Some l => l
            | None => []
            end in
          let allChildren := concat (Js.values hierarchy) in
          let parents :=
            filter
              (fun parent =>
                 negb (Js.Set_has allChildren parent)
                 && match Js.lookup hierarchy parent with
                    | Some children => (0 <? length children)%nat
                    | None => false
                    end)
              (Js.keys hierarchy) in
          let standalone :=
            filter
              (fun segment =>
                 negb (Js.Set_has allChildren segment)
                 && match Js.lookup hierarchy segment with
                    | Some _ => false
                    | None => true
                    end)
              allSegments in
          ret (Js.sort_strings (parents ++ standalone)%list)
      end
  end.

(** [getFirstSegmentType]: [!data.dimensions.segments] guards an absent
    [segments], but reading it throws when [dimensions] is absent. *)
Definition getFirstSegmentType (data : option ComparisonData)
  : Js.throws (option string) :=
  match data with
  | None => ret None
  | Some d =>
      dims <- Js.deref (dimensions d) ;;
      match segments dims with
      | None => ret None
      | Some segs =>
          match Js.keys segs with
          | [] => ret None
          | first :: _ => ret (Some first)
          end
      end
  end.

(** [firstSegmentType ? ... : ...]: [null] and the empty string are falsy. *)
Definition truthy_type (t : option string) : option string :=
  match t with
  | Some s => if Js.truthy_string s then Some s else None
  | None => None
  end.

(** [data.dimensions?.geographies?.all_geographies] *)
Definition all_geographies_of (d : ComparisonData) : option (list string) :=
  match dimensions d with
  | None => None
  | Some dims =>
      match geographies dims with
      | None => None
      | Some g => all_geographies g
      end
  end.

(** [data.dimensions?.segments?.[firstSegmentType]] *)
Definition segment_dimension_of (d : ComparisonData) (t : string)
  : option SegmentDimension :=
  match dimensions d with
  | None => None
  | Some dims =>
      match segments dims with
      | None => None
      | Some segs => Js.lookup segs t
      end
  end.

Definition not_global (g : string) : bool := negb (String.eqb g "Global").

(** The geography fallback shared by the three builders:
    [geographies.length === 0 && all_geographies] selects the first [n]
    entries other than Global. *)
Definition fallback_geographies
  (d : ComparisonData) (ranked : list string) (n : Z) : list string :=
  match ranked, all_geographies_of d with
  | [], Some all =>
      let allGeos := filter not_global all in
      Js.slice0 allGeos n
  | _, _ => ranked
  end.

(** The segment fallback shared by the three builders. *)
Definition fallback_segments
  (d : ComparisonData) (firstSegmentType : option string)
  (firstLevelSegments : list string) : list string :=
  match firstLevelSegments, truthy_type firstSegmentType with
  | [], Some t =>
      match segment_dimension_of d t with
      | Some dim =>
          let allSegments :=
            match items dim with
            | Some l => l
            | None => []
            end in
          Js.slice0 allSegments 3
      | None => firstLevelSegments
      end
  | _, _ => firstLevelSegments
  end.

(** [firstSegmentType || 'By Drug Class'] *)
Definition segment_type_or_default (firstSegmentType : option string) : string :=
  match truthy_type firstSegmentType with
  | Some t => t
  | None => "By Drug Class"
  end.

(** [firstSegmentType ? getFirstLevelSegments(data, firstSegmentType) : []] *)
Definition first_level_of
  (d : ComparisonData) (firstSegmentType : option string)
  : Js.throws (list string) :=
  match truthy_type firstSegmentType with
  | Some t => getFirstLevelSegments (Some d) t
  | None => ret []
  end.

(** The three preset builders. *)
Definition createTopMarketFilters (data : option ComparisonData)
  : Js.throws FilterState.t :=
  match data with
  | None =>
      ret {| FilterState.viewMode := Some "geography-mode";
             FilterState.geographies := None;
             FilterState.segments := None;
             FilterState.segmentType := None;
             FilterState.yearRange := Some (2024, 2028);
             FilterState.dataType := Some "value" |}
  | Some d =>
      let topRegions := getTopRegionsByMarketValue (Some d) 2024 3 in
      firstSegmentType <- getFirstSegmentType (Some d) ;;
      firstLevelSegments <- first_level_of d firstSegmentType ;;
      let geographies := fallback_geographies d topRegions 3 in
      let segments := fallback_segments d firstSegmentType firstLevelSegments in
      ret {| FilterState.viewMode := Some "geography-mode";
             FilterState.geographies := Some geographies;
             FilterState.segments := Some segments;
             FilterState.segmentType :=
               Some (segment_type_or_default firstSegmentType);
             FilterState.yearRange := Some (2024, 2028);
             FilterState.dataType := Some "value" |}
  end.

Definition createGrowthLeadersFilters (data : option ComparisonData)
  : Js.throws FilterState.t :=
  match data with
  | None =>
      ret {| FilterState.viewMode := Some "geography-mode";
             FilterState.geographies := None;
             FilterState.segments := None;
             FilterState.segmentType := None;
             FilterState.yearRange := Some (2024, 2032);
             FilterState.dataType := Some "value" |}
  | Some d =>
      let topRegions := getTopRegionsByCAGR (Some d) 2 in
      firstSegmentType <- getFirstSegmentType (Some d) ;;
      firstLevelSegments <- first_level_of d firstSegmentType ;;
      let geographies := fallback_geographies d topRegions 2 in
      let segments := fallback_segments d firstSegmentType firstLevelSegments in
      ret {| FilterState.viewMode := Some "geography-mode";
             FilterState.geographies := Some geographies;
             FilterState.segments := Some segments;
             FilterState.segmentType :=
               Some (segment_type_or_default firstSegmentType);
             FilterState.yearRange := Some (2024, 2032);
             FilterState.dataType := Some "value" |}
  end.

Definition createEmergingMarketsFilters (data : option ComparisonData)
  : Js.throws FilterState.t :=
  match data with
  | None =>
      ret {| FilterState.viewMode := Some "geography-mode";
             FilterState.geographies := None;
             FilterState.segments := None;
             FilterState.segmentType := None;
             FilterState.yearRange := Some (2024, 2032);
             FilterState.dataType := Some "value" |}
  | Some d =>
      let topCountries := getTopCountriesByCAGR (Some d) 5 in
      firstSegmentType <- getFirstSegmentType (Some d) ;;
      firstLevelSegments <- first_level_of d firstSegmentType ;;
      let geographies := fallback_geographies d topCountries 5 in
      let segments := fallback_segments d firstSegmentType firstLevelSegments in
      ret {| FilterState.viewMode := Some "geography-mode";
             FilterState.geographies := Some geographies;
             FilterState.segments := Some segments;
             FilterState.segmentType :=
               Some (segment_type_or_default firstSegmentType);
             FilterState.yearRange := Some (2024, 2032);
             FilterState.dataType := Some "value" |}
  end.

(** ** Specification-side notions *)

(** The records a ranking scans: none when the guards reject the dataset. *)
Definition records_of (data : option ComparisonData) : list DataRecord :=
  match data with
  | None => []
  | Some d =>
      match matrix_records d with
      | Some records => records
      | None => []
      end
  end.

(** Sum of a list of numbers. *)
Definition Qsum (l : list Q) : Q := fold_right Qplus 0%Q l.

(** The value of geography [g] summed over all its records for [year]. *)
Definition aggregated_value (records : list DataRecord) (year : Z) (g : string) : Q :=
  Qsum (map (fun r => record_value r year)
            (filter (fun r => String.eqb (geography r) g) records)).


(** The valid CAGR observations of geography [g], in record order. *)
Fixpoint valid_cagrs (records : list DataRecord) (g : string) : list Q :=
  match records with
  | [] => []
  | r :: records' =>
      match Js.valid_number (cagr r) with
      | Some c =>
          if String.eqb (geography r) g then c :: valid_cagrs records' g
          else valid_cagrs records' g
      | None => valid_cagrs records' g
      end
  end.


(** Number of distinct geographies other than Global among the records. *)
Definition distinct_geographies (records : list DataRecord) : nat :=
  length (nodup string_dec (filter not_global (map geography records))).

(** [x] occurs in [l] somewhere before an occurrence of [y]. *)
Definition before {A : Type} (l : list A) (x y : A) : Prop :=
  exists l1 l2 l3, l = (l1 ++ x :: l2 ++ y :: l3)%list.

(** Keys in order of first occurrence, skipping those already [seen]. *)
Fixpoint first_seen (seen : list string) (l : list string) : list string :=
  match l with
  | [] => []
  | g :: l' =>
      if Js.Set_has seen g then first_seen seen l'
      else g :: first_seen (g :: seen) l'
  end.

(** ** Notions used by the proofs *)

Section StableOrder.
Context {A : Type} (cmp : A -> A -> comparison).

(** The order a stable sort of [l] realises: strictly ahead by the
    comparator, or tied and ahead in [l]. *)
Definition stable_order (l : list A) (x y : A) : Prop :=
  cmp x y = Lt \/ (cmp x y = Eq /\ before l x y).

End StableOrder.

(** Grouping records into a map, the pattern of both rankings: a record
    with key [k] replaces the value at [k] by [upd] of the current one. *)
Section Grouping.
Context {R V : Type}.
Variable key : R -> option string.
Variable upd : option V -> R -> V.

Definition group_step (m : Js.Map V) (r : R) : Js.Map V :=
  match key r with
  | None => m
  | Some k => Js.Map_set m k (upd (Js.Map_get m k) r)
  end.

Definition group_keys (records : list R) : list string :=
  flat_map (fun r => match key r with Some k => [k] | None => [] end) records.

Fixpoint group_value (cur : option V) (records : list R) (k : string)
  : option V :=
  match records with
  | [] => cur
  | r :: records' =>
      match key r with
      | Some k' =>
          if String.eqb k' k then group_value (Some (upd cur r)) records' k
          else group_value cur records' k
      | None => group_value cur records' k
      end
  end.

End Grouping.

(** The comparator [(a, b) => b[1] - a[1]] on entries. *)
Definition desc {K : Type} (a b : K * Q) : comparison := Js.sign (snd b - snd a)%Q.

(** The ranking by aggregated value as an instance of the grouping
    pattern, and as a function of the records it scans. *)
Definition value_key (r : DataRecord) : option string :=
  if String.eqb (geography r) "Global" then None else Some (geography r).

Definition total_upd (year : Z) (cur : option Q) (r : DataRecord) : Q :=
  (match cur with Some t => t | None => 0 end + record_value r year)%Q.

Definition value_ranking (records : list DataRecord) (year topN : Z)
  : list string :=
  map fst
    (Js.slice0 (Js.sort desc (fold_left (add_total year) records [])) topN).

(** The body of the [forEach] of the two CAGR rankings, their averaging
    step, and the ranking both compute from the records they scan. *)
Definition add_cagr (geographyCAGRs : Js.Map (list Q)) (record : DataRecord)
  : Js.Map (list Q) :=
  let geography := geography record in
  if String.eqb geography "Global" then geographyCAGRs
  else
    match Js.valid_number (cagr record) with
    | Some c =>
        let cagrs :=
          match Js.Map_get geographyCAGRs geography with
          | Some l => l
          | None => []
          end in
        Js.Map_set geographyCAGRs geography (cagrs ++ [c])%list
    | None => geographyCAGRs
    end.

Definition average_entry (entry : string * list Q) : string * Q :=
  let (geography, cagrs) := entry in
  (geography,
   (fold_left Qplus cagrs 0 / inject_Z (Z.of_nat (length cagrs)))%Q).

Definition cagr_ranking (records : list DataRecord) (topN : Z) : list string :=
  map fst
    (Js.slice0
       (Js.sort desc (map average_entry (fold_left add_cagr records [])))
       topN).

(** The CAGR grouping as an instance of the grouping pattern. *)
Definition cagr_key (r : DataRecord) : option string :=
  if String.eqb (geography r) "Global" then None
  else match Js.valid_number (cagr r) with
       | Some _ => Some (geography r)
       | None => None
       end.

Definition cagr_upd (cur : option (list Q)) (r : DataRecord) : list Q :=
  let cagrs := match cur with Some l => l | None => [] end in
  match Js.valid_number (cagr r) with
  | Some c => (cagrs ++ [c])%list
  | None => cagrs
  end.

(** [segmentDimension.hierarchy || {}] and [segmentDimension.items || []] *)
Definition hierarchy_of (dim : SegmentDimension) : list (string * list string) :=
  match hierarchy dim with Some h => h | None => [] end.

Definition items_of (dim : SegmentDimension) : list string :=
  match items dim with Some l => l | None => [] end.

(** [s] is listed as a child under some parent of the hierarchy. *)
Definition is_child (h : list (string * list string)) (s : string) : Prop :=
  exists parent children, In (parent, children) h /\ In s children.

(** [s] is a key of the hierarchy with at least one child. *)
Definition is_parent (h : list (string * list string)) (s : string) : Prop :=
  In s (Js.keys h) /\
  exists children, Js.lookup h s = Some children /\ children <> [].

(** First-level segments: parents that are nobody's child, and items that
    are neither a key of the hierarchy nor anybody's child. *)
Definition first_level (dim : SegmentDimension) (s : string) : Prop :=
  let h := hierarchy_of dim in
  (is_parent h s /\ ~ is_child h s)
  \/ (In s (items_of dim) /\ ~ In s (Js.keys h) /\ ~ is_child h s).

(** Geography [g] has a record carrying a value for [year]. *)
Definition has_record_for_year
  (records : list DataRecord) (year : Z) (g : string) : Prop :=
  exists r ts v,
    In r records /\ geography r = g
    /\ time_series r = Some ts /\ year_lookup ts year = Some v.

(** [ranked] unless it is empty, in which case [fallback]. *)
Definition or_if_empty (ranked fallback : list string) : list string :=
  match ranked with
  | [] => fallback
  | _ :: _ => ranked
  end.

(** The geography list of a builder's result, empty when the builder set
    none. *)
Definition returned_geographies (r : Js.throws FilterState.t) : list string :=
  match r with
  | inr cfg =>
      match FilterState.geographies cfg with
      | Some gs => gs
      | None => []
      end
  | inl _ => []
  end.

(** ** Example datasets *)

(** A record with a time series, and a dataset with every path present. *)
Definition record (g : string) (ts : list (Z * Js.number))
  (c : option Js.number) : DataRecord :=
  {| geography := g; time_series := Some ts; cagr := c |}.

Definition dataset (geos : list string)
  (segs : list (string * SegmentDimension)) (records : list DataRecord)
  : ComparisonData :=
  {| dimensions :=
       Some {| geographies := Some {| all_geographies := Some geos |};
               segments := Some segs |};
     data :=
       Some {| value :=
                 Some {| geography_segment_matrix := Some (IsArray records) |} |} |}.

(** Five listed geographies and no value record at all. *)
Definition fallback_example : ComparisonData :=
  dataset ["Global"; "A"; "B"; "C"; "D"] [] [].

(** Only the roll-up is listed, and there is no value record. *)
Definition global_only_example : ComparisonData :=
  dataset ["Global"] [] [].

(** Records exist for every geography, none of them for 2024. *)
Definition other_year_example : ComparisonData :=
  dataset ["Global"; "A"; "B"; "C"; "D"] []
    [record "D" [(2023, Js.Num 4)] None;
     record "A" [(2023, Js.Num 1)] None;
     record "B" [(2023, Js.Num 2)] None;
     record "C" [(2023, Js.Num 3)] None].

(** One segment type with a parent X of Y and Z, and a standalone W. *)
Definition hierarchy_example : ComparisonData :=
  dataset ["Global"; "A"]
    [("By Drug Class",
      {| items := Some ["X"; "Y"; "Z"; "W"];
         hierarchy := Some [("X", ["Y"; "Z"])] |})]
    [].

(** A averages 5 over two records, B averages 9, C has a null and a NaN
    CAGR, and the roll-up carries the largest CAGR of all. *)
Definition growth_example : ComparisonData :=
  dataset ["Global"; "A"; "B"; "C"] []
    [record "Global" [(2024, Js.Num 100)] (Some (Js.Num 50));
     record "A" [(2024, Js.Num 10)] (Some (Js.Num 4));
     record "C" [(2024, Js.Num 30)] None;
     record "B" [(2024, Js.Num 20)] (Some (Js.Num 8));
     record "A" [(2024, Js.Num 10)] (Some (Js.Num 6));
     record "C" [(2024, Js.Num 30)] (Some Js.NaN);
     record "B" [(2024, Js.Num 20)] (Some (Js.Num 10))].


(** [dimensions] without [segments]. *)
Definition no_segments_example : ComparisonData :=
  {| dimensions :=
       Some {| geographies := Some {| all_geographies := Some ["Global"; "A"] |};
               segments := None |};
     data :=
       Some {| value :=
                 Some {| geography_segment_matrix := Some (IsArray []) |} |} |}.

(** No [dimensions] at all. *)
Definition no_dimensions_example : ComparisonData :=
  {| dimensions := None;
     data :=
       Some {| value :=
                 Some {| geography_segment_matrix := Some (IsArray []) |} |} |}.

(** ** Further notions, for the properties beyond the claims *)

(** The record carries a CAGR that passes the validity test. *)
Definition has_valid_cagr (r : DataRecord) : bool :=
  match Js.valid_number (cagr r) with
  | Some _ => true
  | None => false
  end.

(** Number of distinct geographies other than Global among the records
    with a valid CAGR. *)
Definition distinct_valid_geographies (records : list DataRecord) : nat :=
  length (nodup string_dec
            (filter not_global
               (map geography (filter has_valid_cagr records)))).

(** The object literal the three builders return on a present dataset. *)
Definition preset (yearEnd : Z) (geographies segments : list string)
  (segmentType : string) : FilterState.t :=
  {| FilterState.viewMode := Some "geography-mode";
     FilterState.geographies := Some geographies;
     FilterState.segments := Some segments;
     FilterState.segmentType := Some segmentType;
     FilterState.yearRange := Some (2024, yearEnd);
     FilterState.dataType := Some "value" |}.

(** The part of a builder after its ranking call: the segment type, the
    first-level segments, the two fallbacks and the result. *)
Definition build (d : ComparisonData) (ranked : list string) (n : Z)
  (yearEnd : Z) : Js.throws FilterState.t :=
  firstSegmentType <- getFirstSegmentType (Some d) ;;
  firstLevelSegments <- first_level_of d firstSegmentType ;;
  ret (preset yearEnd
         (fallback_geographies d ranked n)
         (fallback_segments d firstSegmentType firstLevelSegments)
         (segment_type_or_default firstSegmentType)).

(** The segment list of a builder's result, empty when the builder set
    none. *)
Definition returned_segments (r : Js.throws FilterState.t) : list string :=
  match r with
  | inr cfg =>
      match FilterState.segments cfg with
      | Some l => l
      | None => []
      end
  | inl _ => []
  end.

(** Two regions tie on mean CAGR, and one record has no time series. *)
Definition cagr_tie_example : ComparisonData :=
  dataset ["Global"; "East"; "West"; "North"]
    [("By Type",
      {| items := Some ["S1"; "S2"; "S3"; "S4"]; hierarchy := None |})]
    [record "West" [(2024, Js.Num 3)] (Some (Js.Num 6));
     record "Global" [(2024, Js.Num 9)] (Some (Js.Num 7));
     record "East" [(2024, Js.Num 5)] (Some (Js.Num 4));
     {| geography := "North"; time_series := None;
        cagr := Some (Js.Num 2) |};
     record "East" [(2024, Js.Num 1)] (Some (Js.Num 8))].

(** The records of [cagr_tie_example] without those of the roll-up. *)
Definition cagr_tie_no_global_example : ComparisonData :=
  dataset ["Global"; "East"; "West"; "North"] []
    [record "West" [(2024, Js.Num 3)] (Some (Js.Num 6));
     record "East" [(2024, Js.Num 5)] (Some (Js.Num 4));
     {| geography := "North"; time_series := None;
        cagr := Some (Js.Num 2) |};
     record "East" [(2024, Js.Num 1)] (Some (Js.Num 8))].

(** ** The dashboard page (src/app/page.tsx)

    The bodies of the page's effects that switch the chart group, the
    proposition tab and the chart tab, each as a function from the state
    it reads to the value it passes to the setter, if it calls one.
    Truthiness of the data objects is a boolean; the list of charts of
    the selected group comes from [getChartsForGroup], which is not among
    the sources, and is a parameter. *)

Module Page.

Definition customer_intelligence : string := "customer-intelligence".

(** [useState<'prop1' | 'prop2' | 'prop3'>] *)
Inductive PropositionTab : Type :=
| prop1
| prop2
| prop3.

Definition tab_eqb (a b : PropositionTab) : bool :=
  match a, b with
  | prop1, prop1 | prop2, prop2 | prop3, prop3 => true
  | _, _ => false
  end.

(** The effect that sets the default proposition tab (lines 61-75). *)
Definition propositionTabEffect (hasProp1 hasProp2 hasProp3 : bool)
  (activePropositionTab : PropositionTab) : option PropositionTab :=
  if hasProp1 && negb (tab_eqb activePropositionTab prop1)
     && negb hasProp2 && negb hasProp3
  then Some prop1
  else if hasProp2 && negb (tab_eqb activePropositionTab prop2)
          && negb hasProp1 && negb hasProp3
  then Some prop2
  else if hasProp3 && negb (tab_eqb activePropositionTab prop3)
          && negb hasProp1 && negb hasProp2
  then Some prop3
  else if hasProp1 && negb (tab_eqb activePropositionTab prop1)
          && negb (tab_eqb activePropositionTab prop2)
          && negb (tab_eqb activePropositionTab prop3)
  then Some prop1
  else None.

(** The state after the effect ran. *)
Definition after_propositionTabEffect (hasProp1 hasProp2 hasProp3 : bool)
  (activePropositionTab : PropositionTab) : PropositionTab :=
  match propositionTabEffect hasProp1 hasProp2 hasProp3 activePropositionTab with
  | Some tab => tab
  | None => activePropositionTab
  end.

(** The effect that switches the chart group to the available data
    (lines 116-137). *)
Definition chartGroupEffect (selectedChartGroup : string)
  (hasMarketData hasIntelligenceData : bool) : option string :=
  if String.eqb selectedChartGroup customer_intelligence
     && negb hasIntelligenceData
  then (if hasMarketData then Some "market-analysis" else None)
  else if negb hasMarketData && hasIntelligenceData
          && negb (String.eqb selectedChartGroup customer_intelligence)
  then Some customer_intelligence
  else if hasMarketData && negb hasIntelligenceData
          && String.eqb selectedChartGroup customer_intelligence
  then Some "market-analysis"
  else None.

Definition after_chartGroupEffect (selectedChartGroup : string)
  (hasMarketData hasIntelligenceData : bool) : string :=
  match chartGroupEffect selectedChartGroup hasMarketData hasIntelligenceData with
  | Some group => group
  | None => selectedChartGroup
  end.

(** [chartIdToTab] *)
Definition chartIdToTab : list (string * string) :=
  [("grouped-bar", "bar");
   ("multi-line", "line");
   ("heatmap", "heatmap");
   ("comparison-table", "table");
   ("waterfall", "waterfall");
   ("bubble", "bubble");
   ("competitive-intelligence", "competitive-intelligence");
   ("customer-intelligence", "customer-intelligence")].

(** [chart && chartIdToTab[chart]], for [chart] possibly [undefined]. *)
Definition tab_of (chart : option string) : option string :=
  match chart with
  | Some c => if Js.truthy_string c then Js.lookup chartIdToTab c else None
  | None => None
  end.

(** [visibleCharts.find(chart => chart !== 'customer-intelligence')] *)
Definition first_other_chart (visibleCharts : list string) : option string :=
  find (fun chart => negb (String.eqb chart customer_intelligence))
       visibleCharts.

(** The effect that switches the active tab (lines 140-178): the tab it
    passes to [setActiveTab], if any. *)
Definition activeTabEffect (activeTab : string) (visibleCharts : list string)
  (hasMarketData hasIntelligenceData : bool) : option string :=
  match
    (if String.eqb activeTab customer_intelligence && negb hasIntelligenceData
     then tab_of (first_other_chart visibleCharts)
     else None)
  with
  | Some targetTab => Some targetTab
  | None =>
      if negb hasMarketData && hasIntelligenceData
         && negb (String.eqb activeTab customer_intelligence)
      then Some customer_intelligence
      else
        match
          (if hasMarketData && negb hasIntelligenceData
              && String.eqb activeTab customer_intelligence
           then tab_of (first_other_chart visibleCharts)
           else None)
        with
        | Some targetTab => Some targetTab
        | None => tab_of (hd_error visibleCharts)
        end
  end.

End Page.

(** ** Facts about the JavaScript primitives *)

Section SortFacts.
Context {A : Type} (cmp : A -> A -> comparison).

Lemma insert_perm (x : A) (l : list A) :
  Permutation (Js.insert cmp x l) (x :: l).
Proof.
  induction l as [|y l IH]; simpl.
  - apply Permutation_refl.
  - destruct (cmp x y); try apply Permutation_refl.
    eapply perm_trans; [apply perm_skip, IH | apply perm_swap].
Qed.

Lemma sort_perm (l : list A) : Permutation (Js.sort cmp l) l.
Proof.
  induction l as [|x l IH]; simpl.
  - constructor.
  - eapply perm_trans; [apply insert_perm | apply perm_skip, IH].
Qed.

Lemma sort_In (l : list A) (x : A) : In x (Js.sort cmp l) <-> In x l.
Proof.
  split; apply Permutation_in;
    [apply sort_perm | apply Permutation_sym, sort_perm].
Qed.

Lemma sort_length (l : list A) : length (Js.sort cmp l) = length l.
Proof. apply Permutation_length, sort_perm. Qed.

(** A comparator is consistent when swapping its arguments flips its
    sign and "does not have to follow" is transitive. *)
Hypothesis cmp_antisym : forall x y, cmp y x = CompOpp (cmp x y).
Hypothesis cmp_trans :
  forall x y z, cmp x y <> Gt -> cmp y z <> Gt -> cmp x z <> Gt.

Lemma stable_order_not_Gt l x y : stable_order cmp l x y -> cmp x y <> Gt.
Proof. intros [H | [H _]]; rewrite H; discriminate. Qed.

Lemma before_cons (l : list A) (a x y : A) :
  before l x y -> before (a :: l) x y.
Proof.
  intros (l1 & l2 & l3 & ->). exists (a :: l1), l2, l3. reflexivity.
Qed.

Lemma before_head (l : list A) (a y : A) : In y l -> before (a :: l) a y.
Proof.
  intros H. apply in_split in H. destruct H as (l2 & l3 & ->).
  exists [], l2, l3. reflexivity.
Qed.

Lemma stable_order_cons l a x y :
  stable_order cmp l x y -> stable_order cmp (a :: l) x y.
Proof.
  intros [H | [H Hb]]; [left | right]; auto using before_cons.
Qed.

Lemma insert_stable (l : list A) (a : A) (s : list A) :
  (forall y, In y s -> In y l) ->
  StronglySorted (stable_order cmp (a :: l)) s ->
  StronglySorted (stable_order cmp (a :: l)) (Js.insert cmp a s).
Proof.
  intros Hin Hs. induction Hs as [|y s Hs IH Hall]; simpl.
  - repeat constructor.
  - assert (Hy : In y l) by (apply Hin; left; reflexivity).
    assert (Hin' : forall z, In z s -> In z l)
      by (intros z Hz; apply Hin; right; exact Hz).
    assert (Hfront : cmp a y <> Gt ->
              StronglySorted (stable_order cmp (a :: l)) (a :: y :: s)).
    { intros Hle. constructor; [constructor; assumption|].
      assert (Ha : forall z, In z l -> cmp a z <> Gt -> stable_order cmp (a :: l) a z).
      { intros z Hz Hc. destruct (cmp a z) eqn:E; try congruence.
        - right. split; [exact E | apply before_head; exact Hz].
        - left. exact E. }
      constructor; [apply Ha; assumption|].
      rewrite Forall_forall in *. intros z Hz. apply Ha; [auto|].
      eapply cmp_trans; [exact Hle|].
      eapply stable_order_not_Gt, Hall, Hz. }
    destruct (cmp a y) eqn:E.
    + apply Hfront. discriminate.
    + apply Hfront. discriminate.
    + constructor; [apply IH; exact Hin'|].
      rewrite Forall_forall in *. intros z Hz.
      apply (Permutation_in _ (insert_perm a s)) in Hz.
      destruct Hz as [<- | Hz]; [|apply Hall; exact Hz].
      left. rewrite cmp_antisym, E. reflexivity.
Qed.

Lemma sort_stable (l : list A) :
  StronglySorted (stable_order cmp l) (Js.sort cmp l).
Proof.
  induction l as [|a l IH]; simpl.
  - constructor.
  - apply insert_stable.
    + intros y Hy. exact (proj1 (sort_In l y) Hy).
    + eapply StronglySorted_ind with
        (P := StronglySorted (stable_order cmp (a :: l))); [| |exact IH].
      * constructor.
      * intros x s _ Hs Hall. constructor; [exact Hs|].
        eapply Forall_impl; [|exact Hall].
        intros z. apply stable_order_cons.
Qed.
End SortFacts.

Section ListFacts.
Context {A : Type}.


Lemma nth_error_firstn_Some (k : nat) (l : list A) (i : nat) (x : A) :
  nth_error (firstn k l) i = Some x -> nth_error l i = Some x.
Proof.
  revert l i. induction k as [|k IH]; intros l i H.
  - destruct i; discriminate.
  - destruct l as [|a l]; [destruct i; discriminate|].
    destruct i as [|i]; simpl in *; auto.
Qed.

Lemma slice0_firstn (l : list A) (n : Z) :
  exists k, Js.slice0 l n = firstn k l.
Proof. unfold Js.slice0. eexists. reflexivity. Qed.

Lemma slice0_nth (l : list A) (n : Z) (i : nat) (x : A) :
  nth_error (Js.slice0 l n) i = Some x -> nth_error l i = Some x.
Proof. unfold Js.slice0. apply nth_error_firstn_Some. Qed.

Lemma slice0_In (l : list A) (n : Z) (x : A) :
  In x (Js.slice0 l n) -> In x l.
Proof.
  intros H. apply In_nth_error in H. destruct H as [i H].
  apply slice0_nth in H. eapply nth_error_In; eassumption.
Qed.

Lemma slice0_length (l : list A) (n : Z) :
  0 <= n ->
  Z.of_nat (length (Js.slice0 l n)) = Z.min n (Z.of_nat (length l)).
Proof.
  intros Hn. unfold Js.slice0.
  destruct (Z.ltb_spec n 0) as [Hlt | _]; [lia|].
  rewrite length_firstn. lia.
Qed.

Lemma slice0_nonempty (l : list A) (n : Z) :
  0 < n -> l <> [] -> Js.slice0 l n <> [].
Proof.
  intros Hn Hl H. apply (f_equal (@length A)) in H.
  apply (f_equal Z.of_nat) in H. rewrite slice0_length in H by lia.
  destruct l; [congruence|]. simpl length in H. lia.
Qed.

End ListFacts.


Lemma Set_has_In (s : list string) (x : string) :
  Js.Set_has s x = true <-> In x s.
Proof.
  unfold Js.Set_has. rewrite existsb_exists. split.
  - intros (y & Hy & E). apply String.eqb_eq in E. subst. exact Hy.
  - intros H. exists x. split; [exact H | apply String.eqb_refl].
Qed.

Lemma Set_has_false (s : list string) (x : string) :
  Js.Set_has s x = false <-> ~ In x s.
Proof.
  rewrite <- Set_has_In. destruct (Js.Set_has s x); split; congruence.
Qed.

Lemma not_global_true (g : string) : not_global g = true <-> g <> "Global".
Proof.
  unfold not_global. rewrite negb_true_iff. apply String.eqb_neq.
Qed.

(** *** Keys in order of first occurrence *)

Lemma first_seen_ext (s1 s2 l : list string) :
  (forall x, In x s1 <-> In x s2) -> first_seen s1 l = first_seen s2 l.
Proof.
  revert s1 s2. induction l as [|g l IH]; intros s1 s2 H; simpl; [reflexivity|].
  assert (E : Js.Set_has s1 g = Js.Set_has s2 g).
  { destruct (Js.Set_has s2 g) eqn:E2.
    - apply Set_has_In. apply H. apply Set_has_In. exact E2.
    - apply Set_has_false. rewrite H. apply Set_has_false. exact E2. }
  rewrite E. destruct (Js.Set_has s2 g).
  - apply IH. exact H.
  - f_equal. apply IH. intros x. simpl. rewrite H. reflexivity.
Qed.

Lemma first_seen_In (seen l : list string) (x : string) :
  In x (first_seen seen l) <-> In x l /\ ~ In x seen.
Proof.
  revert seen. induction l as [|g l IH]; intros seen; simpl.
  - tauto.
  - destruct (Js.Set_has seen g) eqn:E.
    + apply Set_has_In in E. rewrite IH. split.
      * tauto.
      * intros [[-> | H] Hn]; tauto.
    + apply Set_has_false in E. simpl. rewrite IH. simpl.
      destruct (string_dec g x) as [-> | Hne]; tauto.
Qed.

Lemma first_seen_NoDup (seen l : list string) : NoDup (first_seen seen l).
Proof.
  revert seen. induction l as [|g l IH]; intros seen; simpl.
  - constructor.
  - destruct (Js.Set_has seen g); [apply IH|].
    constructor; [|apply IH].
    rewrite first_seen_In. simpl. tauto.
Qed.




(** *** Maps in insertion order *)

Section MapFacts.
Context {V : Type}.

Lemma lookup_Map_set (m : Js.Map V) (k k' : string) (v : V) :
  Js.lookup (Js.Map_set m k v) k' =
  if String.eqb k k' then Some v else Js.lookup m k'.
Proof.
  induction m as [|[k0 v0] m IH]; simpl.
  - reflexivity.
  - destruct (String.eqb k0 k) eqn:E0; simpl.
    + apply String.eqb_eq in E0. subst k0.
      destruct (String.eqb k k'); reflexivity.
    + rewrite IH. destruct (String.eqb k0 k') eqn:E1; [|reflexivity].
      apply String.eqb_eq in E1. subst k0.
      rewrite String.eqb_sym, E0. reflexivity.
Qed.

Lemma keys_Map_set (m : Js.Map V) (k : string) (v : V) :
  Js.keys (Js.Map_set m k v) =
  if Js.Set_has (Js.keys m) k then Js.keys m else (Js.keys m ++ [k])%list.
Proof.
  induction m as [|[k0 v0] m IH]; simpl.
  - reflexivity.
  - unfold Js.keys, Js.Set_has in *. simpl.
    rewrite (String.eqb_sym k k0).
    destruct (String.eqb k0 k); simpl; [reflexivity|].
    rewrite IH.
    destruct (existsb (String.eqb k) (map fst m)); reflexivity.
Qed.

Lemma lookup_In (m : list (string * V)) (k : string) (v : V) :
  Js.lookup m k = Some v -> In (k, v) m.
Proof.
  induction m as [|[k0 v0] m IH]; simpl; [discriminate|].
  destruct (String.eqb k0 k) eqn:E.
  - apply String.eqb_eq in E. intros H. injection H as <-. subst. auto.
  - auto.
Qed.

Lemma lookup_keys (m : list (string * V)) (k : string) :
  In k (Js.keys m) <-> exists v, Js.lookup m k = Some v.
Proof.
  induction m as [|[k0 v0] m IH]; simpl.
  - split; [tauto | intros [v H]; discriminate].
  - destruct (String.eqb k0 k) eqn:E.
    + apply String.eqb_eq in E. split; eauto.
    + apply String.eqb_neq in E. rewrite <- IH. tauto.
Qed.

Lemma In_lookup (m : list (string * V)) (k : string) (v : V) :
  NoDup (Js.keys m) -> In (k, v) m -> Js.lookup m k = Some v.
Proof.
  induction m as [|[k0 v0] m IH]; simpl; [tauto|].
  intros Hnd [H | H].
  - injection H as -> ->. rewrite String.eqb_refl. reflexivity.
  - inversion Hnd as [|? ? Hk Hnd']; subst.
    destruct (String.eqb k0 k) eqn:E; [|auto].
    apply String.eqb_eq in E. subst k0. exfalso. apply Hk.
    apply (in_map fst) in H. exact H.
Qed.
End MapFacts.

(** *** Grouping records into a map, the pattern of both rankings *)

Section GroupFold.
Context {R V : Type}.
Variable key : R -> option string.
Variable upd : option V -> R -> V.

Lemma keys_group_fold (records : list R) (m : Js.Map V) :
  Js.keys (fold_left (group_step key upd) records m) =
  (Js.keys m ++ first_seen (Js.keys m) (group_keys key records))%list.
Proof.
  revert m. induction records as [|r records IH]; intros m; simpl.
  - rewrite app_nil_r. reflexivity.
  - rewrite IH. unfold group_step. destruct (key r) as [k|]; simpl.
    + rewrite keys_Map_set. destruct (Js.Set_has (Js.keys m) k) eqn:E.
      * reflexivity.
      * rewrite <- app_assoc. simpl. do 2 f_equal.
        apply first_seen_ext. intros x. rewrite in_app_iff. simpl. tauto.
    + reflexivity.
Qed.

Lemma lookup_group_fold (records : list R) (m : Js.Map V) (k : string) :
  Js.lookup (fold_left (group_step key upd) records m) k =
  group_value key upd (Js.lookup m k) records k.
Proof.
  revert m. induction records as [|r records IH]; intros m; simpl.
  - reflexivity.
  - rewrite IH. unfold group_step. destruct (key r) as [k'|]; [|reflexivity].
    rewrite lookup_Map_set. destruct (String.eqb k' k) eqn:E; [|reflexivity].
    apply String.eqb_eq in E. subst k'. reflexivity.
Qed.

Lemma group_fold_NoDup (records : list R) :
  NoDup (Js.keys (fold_left (group_step key upd) records [])).
Proof. rewrite keys_group_fold. simpl. apply first_seen_NoDup. Qed.

Lemma group_fold_In (records : list R) (k : string) (v : V) :
  In (k, v) (fold_left (group_step key upd) records []) ->
  group_value key upd None records k = Some v.
Proof.
  intros H. apply In_lookup in H; [|apply group_fold_NoDup].
  rewrite lookup_group_fold in H. exact H.
Qed.
End GroupFold.

Lemma fold_left_ext {A B : Type} (f g : A -> B -> A) (l : list B) (a : A) :
  (forall x y, f x y = g x y) -> fold_left f l a = fold_left g l a.
Proof.
  intros H. revert a. induction l as [|b l IH]; intros a; simpl;
    [reflexivity | rewrite H; apply IH].
Qed.

(** *** Numeric comparators *)


Section DescendingBy.
Context {K : Type}.







End DescendingBy.

(** *** Ranking by aggregated value *)

Lemma getTopRegionsByMarketValue_records data year topN :
  getTopRegionsByMarketValue data year topN =
  value_ranking (records_of data) year topN.
Proof.
  unfold getTopRegionsByMarketValue, records_of, value_ranking.
  destruct data as [d|]; [destruct (matrix_records d)|]; try reflexivity;
    unfold Js.slice0; rewrite firstn_nil; reflexivity.
Qed.

Lemma add_total_group (year : Z) (m : Js.Map Q) (r : DataRecord) :
  add_total year m r = group_step value_key (total_upd year) m r.
Proof.
  unfold add_total, group_step, value_key, total_upd.
  destruct (String.eqb (geography r) "Global"); reflexivity.
Qed.

Lemma totals_group (year : Z) (records : list DataRecord) :
  fold_left (add_total year) records [] =
  fold_left (group_step value_key (total_upd year)) records [].
Proof. apply fold_left_ext, add_total_group. Qed.

Lemma value_group_keys (records : list DataRecord) :
  group_keys value_key records = filter not_global (map geography records).
Proof.
  induction records as [|r records IH]; simpl; [reflexivity|].
  unfold value_key at 1, not_global at 1.
  destruct (String.eqb (geography r) "Global"); simpl; rewrite IH; reflexivity.
Qed.

Lemma totals_keys (year : Z) (records : list DataRecord) :
  Js.keys (fold_left (add_total year) records []) =
  first_seen [] (filter not_global (map geography records)).
Proof.
  rewrite totals_group, keys_group_fold, value_group_keys. reflexivity.
Qed.

Lemma aggregated_value_cons (r : DataRecord) (records : list DataRecord)
  (year : Z) (g : string) :
  (aggregated_value (r :: records) year g ==
   (if String.eqb (geography r) g then record_value r year else 0)
   + aggregated_value records year g)%Q.
Proof.
  unfold aggregated_value. simpl.
  destruct (String.eqb (geography r) g); simpl; [reflexivity | ring].
Qed.

Lemma total_group_value (year : Z) (g : string) (records : list DataRecord) :
  g <> "Global" ->
  forall cur v,
    group_value value_key (total_upd year) cur records g = Some v ->
    (v == match cur with Some t => t | None => 0 end
          + aggregated_value records year g)%Q.
Proof.
  intros Hg. induction records as [|r records IH]; intros cur v H; simpl in H.
  - subst cur. unfold aggregated_value. simpl. ring.
  - rewrite aggregated_value_cons. unfold value_key in H.
    destruct (String.eqb (geography r) "Global") eqn:EG.
    + apply String.eqb_eq in EG.
      assert (String.eqb (geography r) g = false) as ->
          by (apply String.eqb_neq; congruence).
      rewrite (IH _ _ H). ring.
    + destruct (String.eqb (geography r) g).
      * rewrite (IH _ _ H). unfold total_upd. ring.
      * rewrite (IH _ _ H). ring.
Qed.

Lemma totals_entry (year : Z) (records : list DataRecord) (g : string) (v : Q) :
  In (g, v) (fold_left (add_total year) records []) ->
  g <> "Global" /\ In g (map geography records)
  /\ (v == aggregated_value records year g)%Q.
Proof.
  intros H.
  assert (Hk : In g (Js.keys (fold_left (add_total year) records [])))
    by (apply (in_map fst) in H; exact H).
  rewrite totals_keys, first_seen_In, filter_In, not_global_true in Hk.
  destruct Hk as [[Hin Hg] _]. repeat split; try assumption.
  rewrite totals_group in H. apply group_fold_In in H.
  rewrite (total_group_value year g records Hg _ _ H). ring.
Qed.

Lemma value_ranking_In (records : list DataRecord) (year topN : Z) (g : string) :
  In g (value_ranking records year topN) ->
  g <> "Global" /\ In g (map geography records).
Proof.
  unfold value_ranking. rewrite in_map_iff. intros ([g' v] & <- & H).
  apply slice0_In, sort_In, totals_entry in H. simpl. tauto.
Qed.


(** *** Ranking by average CAGR *)

Lemma getTopRegionsByCAGR_records data topN :
  getTopRegionsByCAGR data topN = cagr_ranking (records_of data) topN.
Proof.
  unfold getTopRegionsByCAGR, records_of, cagr_ranking.
  destruct data as [d|]; [destruct (matrix_records d) as [records|]|];
    try (unfold Js.slice0; simpl; rewrite firstn_nil; reflexivity).
  fold add_cagr. destruct (fold_left add_cagr records []); [|reflexivity].
  unfold Js.slice0; simpl; rewrite firstn_nil; reflexivity.
Qed.

Lemma getTopCountriesByCAGR_records data topN :
  getTopCountriesByCAGR data topN = cagr_ranking (records_of data) topN.
Proof.
  unfold getTopCountriesByCAGR, records_of, cagr_ranking.
  destruct data as [d|]; [destruct (matrix_records d) as [records|]|];
    try (unfold Js.slice0; simpl; rewrite firstn_nil; reflexivity).
  fold add_cagr. destruct (fold_left add_cagr records []); [|reflexivity].
  unfold Js.slice0; simpl; rewrite firstn_nil; reflexivity.
Qed.

Lemma add_cagr_group (m : Js.Map (list Q)) (r : DataRecord) :
  add_cagr m r = group_step cagr_key cagr_upd m r.
Proof.
  unfold add_cagr, group_step, cagr_key, cagr_upd.
  destruct (String.eqb (geography r) "Global"); [reflexivity|].
  destruct (Js.valid_number (cagr r)); reflexivity.
Qed.

Lemma cagrs_group (records : list DataRecord) :
  fold_left add_cagr records [] =
  fold_left (group_step cagr_key cagr_upd) records [].
Proof. apply fold_left_ext, add_cagr_group. Qed.

Lemma cagr_group_keys_In (records : list DataRecord) (g : string) :
  In g (group_keys cagr_key records) <->
  g <> "Global" /\ valid_cagrs records g <> [].
Proof.
  induction records as [|r records IH]; simpl.
  - split; [tauto | intros [_ H]; congruence].
  - rewrite in_app_iff, IH. unfold cagr_key.
    destruct (String.eqb (geography r) "Global") eqn:EG.
    + apply String.eqb_eq in EG. simpl.
      destruct (Js.valid_number (cagr r)); [|tauto].
      destruct (String.eqb (geography r) g) eqn:E; [|tauto].
      apply String.eqb_eq in E.
      split; [intros [[] | [H _]] | intros [H _]]; congruence.
    + apply String.eqb_neq in EG.
      destruct (Js.valid_number (cagr r)); simpl; [|tauto].
      destruct (String.eqb (geography r) g) eqn:E.
      * apply String.eqb_eq in E. subst g. split; [|tauto].
        intros _. split; [exact EG | discriminate].
      * apply String.eqb_neq in E. tauto.
Qed.


Lemma cagrs_keys (records : list DataRecord) :
  Js.keys (fold_left add_cagr records []) =
  first_seen [] (group_keys cagr_key records).
Proof. rewrite cagrs_group, keys_group_fold. reflexivity. Qed.


Lemma average_entry_fst (m : Js.Map (list Q)) :
  map fst (map average_entry m) = Js.keys m.
Proof.
  unfold Js.keys. rewrite map_map. apply map_ext. intros [g l]. reflexivity.
Qed.

Lemma cagr_ranking_In (records : list DataRecord) (topN : Z) (g : string) :
  In g (cagr_ranking records topN) ->
  g <> "Global" /\ valid_cagrs records g <> [].
Proof.
  unfold cagr_ranking. intros H.
  assert (Hk : In g (Js.keys (fold_left add_cagr records []))).
  { rewrite <- average_entry_fst. rewrite in_map_iff in *.
    destruct H as (e & <- & H). exists e. split; [reflexivity|].
    eapply sort_In, slice0_In, H. }
  rewrite cagrs_keys, first_seen_In, cagr_group_keys_In in Hk. tauto.
Qed.

Lemma valid_cagrs_none (records : list DataRecord) (g : string) :
  (forall r, In r records -> geography r = g ->
             Js.valid_number (cagr r) = None) ->
  valid_cagrs records g = [].
Proof.
  induction records as [|r records IH]; intros H; simpl; [reflexivity|].
  destruct (Js.valid_number (cagr r)) eqn:Ec.
  - destruct (String.eqb (geography r) g) eqn:E.
    + apply String.eqb_eq in E. rewrite (H r) in Ec by (simpl; auto).
      discriminate.
    + apply IH. intros r' Hr'. apply H. right. exact Hr'.
  - apply IH. intros r' Hr'. apply H. right. exact Hr'.
Qed.


(** *** Default ordering of strings *)

Lemma string_compare_trans (x y z : string) :
  String.compare x y <> Gt -> String.compare y z <> Gt ->
  String.compare x z <> Gt.
Proof.
  revert y z. induction x as [|a x IH]; intros y z Hxy Hyz.
  - destruct z; simpl; discriminate.
  - destruct y as [|b y]; [simpl in Hxy; congruence|].
    destruct z as [|c z]; [simpl in Hyz; congruence|].
    simpl in *. unfold Ascii.compare in *.
    destruct (N.compare_spec (N_of_ascii a) (N_of_ascii b)) as [Eab|Lab|Gab];
      [| |congruence];
      destruct (N.compare_spec (N_of_ascii b) (N_of_ascii c)) as [Ebc|Lbc|Gbc];
      try congruence.
    + rewrite Eab, Ebc, N.compare_refl. eapply IH; eassumption.
    + rewrite Eab. rewrite (proj2 (N.compare_lt_iff _ _) Lbc). discriminate.
    + rewrite <- Ebc. rewrite (proj2 (N.compare_lt_iff _ _) Lab). discriminate.
    + rewrite (proj2 (N.compare_lt_iff _ _) (N.lt_trans _ _ _ Lab Lbc)).
      discriminate.
Qed.

Lemma string_compare_antisym (x y : string) :
  String.compare y x = CompOpp (String.compare x y).
Proof. apply String.compare_antisym. Qed.

Lemma sort_strings_sorted (l : list string) :
  StronglySorted (fun a b => String.leb a b = true) (Js.sort_strings l).
Proof.
  pose proof (sort_stable String.compare string_compare_antisym
                string_compare_trans l) as H.
  unfold Js.sort_strings.
  induction H as [|a s Hs IH Hall]; constructor; [exact IH|].
  eapply Forall_impl; [|exact Hall]. intros b Hb.
  apply stable_order_not_Gt in Hb. unfold String.leb.
  destruct (String.compare a b); congruence.
Qed.

Lemma sort_strings_In (l : list string) (x : string) :
  In x (Js.sort_strings l) <-> In x l.
Proof. apply sort_In. Qed.

(** *** First-level segments *)

Lemma all_children_In (h : list (string * list string)) (s : string) :
  In s (concat (Js.values h)) <-> is_child h s.
Proof.
  rewrite in_concat. unfold Js.values, is_child. split.
  - intros (cs & Hcs & Hs). apply in_map_iff in Hcs.
    destruct Hcs as ([p cs'] & E & Hin). simpl in E. subst cs'. eauto.
  - intros (p & cs & Hin & Hs). exists cs. split; [|exact Hs].
    apply in_map_iff. exists (p, cs). auto.
Qed.

Lemma getFirstLevelSegments_found d dims segs dim ty :
  dimensions d = Some dims -> segments dims = Some segs ->
  Js.lookup segs ty = Some dim ->
  exists out,
    getFirstLevelSegments (Some d) ty = inr out
    /\ (forall s, In s out <-> first_level dim s)
    /\ StronglySorted (fun a b => String.leb a b = true) out.
Proof.
  intros Hd Hs Hl. unfold getFirstLevelSegments. rewrite Hd. simpl.
  rewrite Hs. simpl. rewrite Hl. eexists. split; [reflexivity|].
  split; [|apply sort_strings_sorted].
  intros s. rewrite sort_strings_In, in_app_iff, !filter_In.
  fold (hierarchy_of dim). fold (items_of dim).
  unfold first_level, is_parent. simpl.
  rewrite !andb_true_iff, !negb_true_iff, !Set_has_false, !all_children_In.
  split.
  - intros [(Hk & Hc & Hch) | (Hi & Hc & Hk)].
    + left. destruct (Js.lookup (hierarchy_of dim) s) as [cs|] eqn:E;
        [|discriminate].
      split; [split; [exact Hk|]|exact Hc].
      exists cs. split; [reflexivity|]. destruct cs; [discriminate|congruence].
    + right. split; [exact Hi|]. split; [|exact Hc].
      intros Hin. apply lookup_keys in Hin. destruct Hin as [v Hv].
      rewrite Hv in Hk. discriminate.
  - intros [((Hk & cs & E & Hne) & Hc) | (Hi & Hk & Hc)].
    + left. rewrite E. split; [exact Hk|]. split; [exact Hc|].
      destruct cs; [congruence|reflexivity].
    + right. split; [exact Hi|]. split; [exact Hc|].
      destruct (Js.lookup (hierarchy_of dim) s) as [v|] eqn:E; [|reflexivity].
      exfalso. apply Hk. apply lookup_keys. eauto.
Qed.

(** *** Preset builders *)

Lemma slice0_nonneg {A : Type} (l : list A) (n : Z) :
  0 <= n -> Js.slice0 l n = firstn (Z.to_nat n) l.
Proof.
  intros Hn. unfold Js.slice0.
  destruct (Z.ltb_spec n 0) as [Hlt | _]; [lia|].
  destruct (Z.min_spec n (Z.of_nat (length l))) as [[_ ->] | [Hle ->]];
    [reflexivity|].
  rewrite Nat2Z.id, !firstn_all2; [reflexivity | lia | lia].
Qed.

Lemma fallback_geographies_no_global d ranked n :
  ~ In "Global" ranked -> ~ In "Global" (fallback_geographies d ranked n).
Proof.
  intros H. unfold fallback_geographies.
  destruct ranked; [|exact H]. destruct (all_geographies_of d); [|exact H].
  intros Hin. apply slice0_In, filter_In in Hin. destruct Hin as [_ Hin].
  apply not_global_true in Hin. congruence.
Qed.

Lemma fallback_geographies_empty d all n :
  all_geographies_of d = Some all ->
  fallback_geographies d [] n = Js.slice0 (filter not_global all) n.
Proof. intros H. unfold fallback_geographies. rewrite H. reflexivity. Qed.

Lemma getFirstSegmentType_dims d dims :
  dimensions d = Some dims ->
  exists ft,
    getFirstSegmentType (Some d) = inr ft
    /\ forall t, ft = Some t -> exists segs, segments dims = Some segs.
Proof.
  intros Hd. unfold getFirstSegmentType. rewrite Hd. simpl.
  destruct (segments dims) as [segs|].
  - destruct (Js.keys segs); eexists; (split; [reflexivity|]); eauto.
  - eexists. split; [reflexivity|]. discriminate.
Qed.

Lemma getFirstLevelSegments_total d dims segs ty :
  dimensions d = Some dims -> segments dims = Some segs ->
  exists out, getFirstLevelSegments (Some d) ty = inr out.
Proof.
  intros Hd Hs. unfold getFirstLevelSegments. rewrite Hd. simpl.
  rewrite Hs. simpl. destruct (Js.lookup segs ty); eexists; reflexivity.
Qed.

Lemma first_level_of_total d dims ft :
  dimensions d = Some dims ->
  (forall t, ft = Some t -> exists segs, segments dims = Some segs) ->
  exists out, first_level_of d ft = inr out.
Proof.
  intros Hd Hft. unfold first_level_of, truthy_type.
  destruct ft as [t|]; [|eexists; reflexivity].
  destruct (Hft t eq_refl) as [segs Hs].
  destruct (Js.truthy_string t); [|eexists; reflexivity].
  eapply getFirstLevelSegments_total; eassumption.
Qed.

(** Runs a builder on a present dataset whose [dimensions] is present. *)
Ltac run_builder Hd :=
  let ft := fresh "ft" in
  let Hft := fresh "Hft" in
  let Ht := fresh "Ht" in
  let out := fresh "out" in
  let Hout := fresh "Hout" in
  destruct (getFirstSegmentType_dims _ _ Hd) as (ft & Hft & Ht);
  destruct (first_level_of_total _ _ ft Hd Ht) as (out & Hout);
  rewrite Hft; simpl; rewrite Hout; simpl.

(** Opens the result of a builder that returned. *)
Ltac open_builder H :=
  match type of H with
  | context [getFirstSegmentType ?x] =>
      destruct (getFirstSegmentType x) as [?|?ft]; simpl in H;
      [discriminate H|];
      match type of H with
      | context [first_level_of ?d ?t] =>
          destruct (first_level_of d t) as [?|?out]; simpl in H;
          [discriminate H|]; injection H as H
      end
  end.

Lemma createTopMarketFilters_dims d dims :
  dimensions d = Some dims ->
  exists cfg,
    createTopMarketFilters (Some d) = inr cfg
    /\ FilterState.geographies cfg =
       Some (fallback_geographies d (getTopRegionsByMarketValue (Some d) 2024 3) 3)
    /\ FilterState.yearRange cfg = Some (2024, 2028).
Proof.
  intros Hd. unfold createTopMarketFilters. run_builder Hd.
  eexists. split; [reflexivity|]. split; reflexivity.
Qed.

Lemma createGrowthLeadersFilters_dims d dims :
  dimensions d = Some dims ->
  exists cfg,
    createGrowthLeadersFilters (Some d) = inr cfg
    /\ FilterState.geographies cfg =
       Some (fallback_geographies d (getTopRegionsByCAGR (Some d) 2) 2)
    /\ FilterState.yearRange cfg = Some (2024, 2032).
Proof.
  intros Hd. unfold createGrowthLeadersFilters. run_builder Hd.
  eexists. split; [reflexivity|]. split; reflexivity.
Qed.

Lemma createEmergingMarketsFilters_dims d dims :
  dimensions d = Some dims ->
  exists cfg,
    createEmergingMarketsFilters (Some d) = inr cfg
    /\ FilterState.geographies cfg =
       Some (fallback_geographies d (getTopCountriesByCAGR (Some d) 5) 5)
    /\ FilterState.yearRange cfg = Some (2024, 2032).
Proof.
  intros Hd. unfold createEmergingMarketsFilters. run_builder Hd.
  eexists. split; [reflexivity|]. split; reflexivity.
Qed.

Lemma createTopMarketFilters_geographies d cfg :
  createTopMarketFilters (Some d) = inr cfg ->
  FilterState.geographies cfg =
  Some (fallback_geographies d (getTopRegionsByMarketValue (Some d) 2024 3) 3).
Proof.
  unfold createTopMarketFilters. intros H. open_builder H.
  subst cfg. reflexivity.
Qed.

Lemma createGrowthLeadersFilters_geographies d cfg :
  createGrowthLeadersFilters (Some d) = inr cfg ->
  FilterState.geographies cfg =
  Some (fallback_geographies d (getTopRegionsByCAGR (Some d) 2) 2).
Proof.
  unfold createGrowthLeadersFilters. intros H. open_builder H.
  subst cfg. reflexivity.
Qed.

Lemma createEmergingMarketsFilters_geographies d cfg :
  createEmergingMarketsFilters (Some d) = inr cfg ->
  FilterState.geographies cfg =
  Some (fallback_geographies d (getTopCountriesByCAGR (Some d) 5) 5).
Proof.
  unfold createEmergingMarketsFilters. intros H. open_builder H.
  subst cfg. reflexivity.
Qed.

(** *** Counting distinct geographies *)

Lemma first_seen_length_nodup (l : list string) :
  length (first_seen [] l) = length (nodup string_dec l).
Proof.
  apply Permutation_length, NoDup_Permutation.
  - apply first_seen_NoDup.
  - apply NoDup_nodup.
  - intros x. rewrite first_seen_In, nodup_In. simpl. tauto.
Qed.

Lemma value_ranking_length (records : list DataRecord) (year topN : Z) :
  0 <= topN ->
  Z.of_nat (length (value_ranking records year topN)) =
  Z.min topN (Z.of_nat (distinct_geographies records)).
Proof.
  intros Hn. unfold value_ranking, distinct_geographies.
  rewrite length_map, slice0_length, sort_length by exact Hn.
  rewrite <- first_seen_length_nodup, <- (totals_keys year).
  unfold Js.keys. rewrite length_map. reflexivity.
Qed.

Lemma distinct_geographies_listed (records : list DataRecord) (year : Z)
  (all : list string) :
  (forall g, In g all -> g <> "Global" -> has_record_for_year records year g) ->
  (forall r, In r records -> In (geography r) all) ->
  distinct_geographies records =
  length (nodup string_dec (filter not_global all)).
Proof.
  intros Hall Hrec. unfold distinct_geographies.
  apply Permutation_length, NoDup_Permutation; try apply NoDup_nodup.
  intros g. rewrite !nodup_In, !filter_In, not_global_true, in_map_iff.
  split.
  - intros [(r & <- & Hr) Hg]. split; [apply Hrec; exact Hr | exact Hg].
  - intros [Hin Hg]. split; [|exact Hg].
    destruct (Hall g Hin Hg) as (r & ts & v & Hr & E & _). eauto.
Qed.

(** *** Means of CAGR observations *)


Lemma valid_cagrs_In (records : list DataRecord) (g : string) :
  valid_cagrs records g <> [] -> In g (map geography records).
Proof.
  induction records as [|r records IH]; simpl; [congruence|].
  destruct (Js.valid_number (cagr r)); [|auto].
  destruct (String.eqb (geography r) g) eqn:E; [|auto].
  apply String.eqb_eq in E. auto.
Qed.



(** ** Properties of the engine *)

(** C1 (the code does not meet it).  The claim asks every engine function
    to return a value on partially malformed datasets, a missing shape
    counting as empty.  On a dataset without [dimensions.segments],
    [getFirstSegmentType] returns null, as its guard intends, but
    [getFirstLevelSegments] reads the same path unguarded and throws a
    TypeError.  On a dataset without [dimensions], [getFirstSegmentType]
    and [getFirstLevelSegments] throw, and with them the three builders,
    before the builders reach their own guarded read
    [dimensions?.geographies?.all_geographies]. *)
Theorem C1_unguarded_reads_throw :
  getFirstSegmentType (Some no_segments_example) = inr None
  /\ getFirstLevelSegments (Some no_segments_example) "By Drug Class"
     = inl Js.TypeError
  /\ all_geographies_of no_dimensions_example = None
  /\ getFirstSegmentType (Some no_dimensions_example) = inl Js.TypeError
  /\ getFirstLevelSegments (Some no_dimensions_example) "By Drug Class"
     = inl Js.TypeError
  /\ createTopMarketFilters (Some no_dimensions_example) = inl Js.TypeError
  /\ createGrowthLeadersFilters (Some no_dimensions_example) = inl Js.TypeError
  /\ createEmergingMarketsFilters (Some no_dimensions_example)
     = inl Js.TypeError.
Proof. repeat split; reflexivity. Qed.

(** Where the engine does return: on a null dataset and on every dataset
    whose [dimensions] is present ([getFirstLevelSegments] on its own also
    needs [dimensions.segments]); there an absent, non-array or empty
    record matrix ranks nothing, an absent [segments] gives no segment
    type, and an absent segment type gives no first-level segments. *)
Lemma engine_returns_with_dimensions
  (d : ComparisonData) (dims : Dimensions) (year topN : Z) (ty : string) :
  dimensions d = Some dims ->
  (getTopRegionsByMarketValue None year topN = []
   /\ getTopRegionsByCAGR None topN = []
   /\ getTopCountriesByCAGR None topN = []
   /\ getFirstLevelSegments None ty = inr []
   /\ getFirstSegmentType None = inr None
   /\ (exists cfg, createTopMarketFilters None = inr cfg)
   /\ (exists cfg, createGrowthLeadersFilters None = inr cfg)
   /\ (exists cfg, createEmergingMarketsFilters None = inr cfg))
  /\ (matrix_records d = None ->
      getTopRegionsByMarketValue (Some d) year topN = []
      /\ getTopRegionsByCAGR (Some d) topN = []
      /\ getTopCountriesByCAGR (Some d) topN = [])
  /\ (exists ft,
        getFirstSegmentType (Some d) = inr ft
        /\ (segments dims = None -> ft = None))
  /\ (forall segs,
        segments dims = Some segs ->
        exists out,
          getFirstLevelSegments (Some d) ty = inr out
          /\ (Js.lookup segs ty = None -> out = []))
  /\ (exists cfg, createTopMarketFilters (Some d) = inr cfg)
  /\ (exists cfg, createGrowthLeadersFilters (Some d) = inr cfg)
  /\ (exists cfg, createEmergingMarketsFilters (Some d) = inr cfg).
Proof.
  intros Hd. split; [|split; [|split; [|split; [|split; [|split]]]]].
  - repeat split; try reflexivity; eexists; reflexivity.
  - intros Hm. unfold getTopRegionsByMarketValue, getTopRegionsByCAGR,
      getTopCountriesByCAGR. rewrite Hm. repeat split.
  - unfold getFirstSegmentType. rewrite Hd. simpl.
    destruct (segments dims) as [segs|].
    + destruct (Js.keys segs); eexists; (split; [reflexivity|]); discriminate.
    + eexists. split; reflexivity.
  - intros segs Hs. unfold getFirstLevelSegments. rewrite Hd. simpl.
    rewrite Hs. simpl. destruct (Js.lookup segs ty).
    + eexists. split; [reflexivity|]. discriminate.
    + eexists. split; reflexivity.
  - destruct (createTopMarketFilters_dims _ _ Hd) as (cfg & H & _). eauto.
  - destruct (createGrowthLeadersFilters_dims _ _ Hd) as (cfg & H & _). eauto.
  - destruct (createEmergingMarketsFilters_dims _ _ Hd) as (cfg & H & _). eauto.
Qed.

(** C2.  No ranking function returns "Global", whatever its aggregated
    value or CAGR, and no geography list returned by a preset builder,
    fallback included, contains "Global". *)
Theorem C2_global_never_returned
  (data : option ComparisonData) (year topN : Z) :
  ~ In "Global" (getTopRegionsByMarketValue data year topN)
  /\ ~ In "Global" (getTopRegionsByCAGR data topN)
  /\ ~ In "Global" (getTopCountriesByCAGR data topN)
  /\ ~ In "Global" (returned_geographies (createTopMarketFilters data))
  /\ ~ In "Global" (returned_geographies (createGrowthLeadersFilters data))
  /\ ~ In "Global" (returned_geographies (createEmergingMarketsFilters data)).
Proof.
  assert (Hv : forall y n,
             ~ In "Global" (getTopRegionsByMarketValue data y n)).
  { intros y n H. rewrite getTopRegionsByMarketValue_records in H.
    apply value_ranking_In in H. tauto. }
  assert (Hr : forall n, ~ In "Global" (getTopRegionsByCAGR data n)).
  { intros n H. rewrite getTopRegionsByCAGR_records in H.
    apply cagr_ranking_In in H. tauto. }
  assert (Hc : forall n, ~ In "Global" (getTopCountriesByCAGR data n)).
  { intros n H. rewrite getTopCountriesByCAGR_records in H.
    apply cagr_ranking_In in H. tauto. }
  repeat split; auto; unfold returned_geographies.
  - destruct data as [d|]; [|simpl; tauto].
    destruct (createTopMarketFilters (Some d)) as [e|cfg] eqn:E; [tauto|].
    rewrite (createTopMarketFilters_geographies _ _ E).
    apply fallback_geographies_no_global, Hv.
  - destruct data as [d|]; [|simpl; tauto].
    destruct (createGrowthLeadersFilters (Some d)) as [e|cfg] eqn:E; [tauto|].
    rewrite (createGrowthLeadersFilters_geographies _ _ E).
    apply fallback_geographies_no_global, Hr.
  - destruct data as [d|]; [|simpl; tauto].
    destruct (createEmergingMarketsFilters (Some d)) as [e|cfg] eqn:E; [tauto|].
    rewrite (createEmergingMarketsFilters_geographies _ _ E).
    apply fallback_geographies_no_global, Hc.
Qed.

(** C3 (as stated it fails): a dataset that lists only "Global" has a
    non-empty [all_geographies] and an empty ranking, and the Top Market
    builder returns an empty geography list. *)
Lemma C3_counterexample_global_only :
  all_geographies_of global_only_example = Some ["Global"]
  /\ getTopRegionsByMarketValue (Some global_only_example) 2024 3 = []
  /\ createTopMarketFilters (Some global_only_example)
     = inr {| FilterState.viewMode := Some "geography-mode";
              FilterState.geographies := Some [];
              FilterState.segments := Some [];
              FilterState.segmentType := Some "By Drug Class";
              FilterState.yearRange := Some (2024, 2028);
              FilterState.dataType := Some "value" |}.
Proof. repeat split; reflexivity. Qed.

(** Records that carry no value for the ranked year still enter the
    totals, with 0: the ranking is then not empty and no fallback runs. *)
Example zero_totals_still_rank :
  getTopRegionsByMarketValue (Some other_year_example) 2024 3 = ["D"; "A"; "B"]
  /\ returned_geographies (createTopMarketFilters (Some other_year_example))
     = ["D"; "A"; "B"].
Proof. split; reflexivity. Qed.

(** C3 (amended).  For the dataset with all_geographies =
    ["Global","A","B","C","D"] and an empty record matrix,
    [getTopRegionsByMarketValue] returns the empty sequence and
    [createTopMarketFilters] returns geographies = ["A","B","C"].  In
    general, when [all_geographies] is present each builder returns the
    ranking if it is not empty and otherwise the first N entries other
    than "Global" (N = 3, 2, 5), and the returned list is not empty as
    soon as [all_geographies] has an entry other than "Global". *)
Theorem C3_fallback_first_non_global (d : ComparisonData) (all : list string) :
  all_geographies_of d = Some all ->
  (getTopRegionsByMarketValue (Some fallback_example) 2024 3 = []
   /\ returned_geographies (createTopMarketFilters (Some fallback_example))
      = ["A"; "B"; "C"])
  /\ (exists cfg,
        createTopMarketFilters (Some d) = inr cfg
        /\ FilterState.geographies cfg =
           Some (or_if_empty (getTopRegionsByMarketValue (Some d) 2024 3)
                   (firstn 3 (filter not_global all)))
        /\ ((exists g, In g all /\ g <> "Global") ->
            FilterState.geographies cfg <> Some []))
  /\ (exists cfg,
        createGrowthLeadersFilters (Some d) = inr cfg
        /\ FilterState.geographies cfg =
           Some (or_if_empty (getTopRegionsByCAGR (Some d) 2)
                   (firstn 2 (filter not_global all)))
        /\ ((exists g, In g all /\ g <> "Global") ->
            FilterState.geographies cfg <> Some []))
  /\ (exists cfg,
        createEmergingMarketsFilters (Some d) = inr cfg
        /\ FilterState.geographies cfg =
           Some (or_if_empty (getTopCountriesByCAGR (Some d) 5)
                   (firstn 5 (filter not_global all)))
        /\ ((exists g, In g all /\ g <> "Global") ->
            FilterState.geographies cfg <> Some [])).
Proof.
  intros Hall.
  assert (Hd : exists dims, dimensions d = Some dims).
  { unfold all_geographies_of in Hall.
    destruct (dimensions d); [eauto | discriminate]. }
  destruct Hd as [dims Hd].
  assert (Hfb : forall ranked n, 0 < n ->
            fallback_geographies d ranked n =
              or_if_empty ranked (firstn (Z.to_nat n) (filter not_global all))
            /\ ((exists g, In g all /\ g <> "Global") ->
                Some (fallback_geographies d ranked n) <> Some [])).
  { intros ranked n Hn. destruct ranked as [|g0 ranked].
    - rewrite (fallback_geographies_empty _ _ _ Hall).
      split; [apply slice0_nonneg; lia|].
      intros (g & Hg & Hne) H. injection H as H. revert H.
      apply slice0_nonempty; [exact Hn|].
      intros E. assert (Hin : In g (filter not_global all))
        by (apply filter_In; split; [exact Hg | apply not_global_true; exact Hne]).
      rewrite E in Hin. exact Hin.
    - unfold fallback_geographies. split; [reflexivity|]. discriminate. }
  split; [split; reflexivity|].
  split; [|split].
  - destruct (createTopMarketFilters_dims _ _ Hd) as (cfg & E & Hg & _).
    exists cfg. rewrite Hg.
    destruct (Hfb (getTopRegionsByMarketValue (Some d) 2024 3) 3) as [-> H];
      [lia|]. split; [exact E|]. split; [reflexivity | exact H].
  - destruct (createGrowthLeadersFilters_dims _ _ Hd) as (cfg & E & Hg & _).
    exists cfg. rewrite Hg.
    destruct (Hfb (getTopRegionsByCAGR (Some d) 2) 2) as [-> H];
      [lia|]. split; [exact E|]. split; [reflexivity | exact H].
  - destruct (createEmergingMarketsFilters_dims _ _ Hd) as (cfg & E & Hg & _).
    exists cfg. rewrite Hg.
    destruct (Hfb (getTopCountriesByCAGR (Some d) 5) 5) as [-> H];
      [lia|]. split; [exact E|]. split; [reflexivity | exact H].
Qed.

Lemma C3_fallback_witness :
  all_geographies_of fallback_example = Some ["Global"; "A"; "B"; "C"; "D"]
  /\ exists cfg,
       createTopMarketFilters (Some fallback_example) = inr cfg
       /\ FilterState.geographies cfg = Some ["A"; "B"; "C"]
       /\ FilterState.geographies cfg <> Some [].
Proof.
  split; [reflexivity|].
  destruct (C3_fallback_first_non_global fallback_example
              ["Global"; "A"; "B"; "C"; "D"] eq_refl)
    as (_ & (cfg & E & Hg & Hne) & _).
  exists cfg. split; [exact E|]. split; [rewrite Hg; reflexivity|].
  apply Hne. exists "A". split; [simpl; tauto | discriminate].
Defined.





(** C6.  A geography all of whose records have a null, NaN or absent CAGR
    never appears in the output of [getTopRegionsByCAGR] or
    [getTopCountriesByCAGR]: it is left out of the ranking, not ranked
    with mean 0. *)
Theorem C6_no_valid_cagr_excluded
  (data : option ComparisonData) (topN : Z) (g : string) :
  (forall r, In r (records_of data) -> geography r = g ->
             Js.valid_number (cagr r) = None) ->
  ~ In g (getTopRegionsByCAGR data topN)
  /\ ~ In g (getTopCountriesByCAGR data topN).
Proof.
  intros H. apply valid_cagrs_none in H.
  rewrite getTopRegionsByCAGR_records, getTopCountriesByCAGR_records.
  split; intros Hin; apply cagr_ranking_In in Hin; tauto.
Qed.

Lemma C6_no_valid_cagr_witness :
  ~ In "C" (getTopRegionsByCAGR (Some growth_example) 5)
  /\ ~ In "C" (getTopCountriesByCAGR (Some growth_example) 5).
Proof.
  apply (C6_no_valid_cagr_excluded (Some growth_example) 5 "C").
  intros r Hr Hg. simpl in Hr.
  repeat (destruct Hr as [<- | Hr]; [first [discriminate Hg | reflexivity]|]).
  destruct Hr.
Defined.

(** C7.  For [topN >= 0], [getTopRegionsByMarketValue] returns at most
    [topN] geographies, and exactly min(topN, number of distinct
    geographies other than Global among the records); when the records
    are for listed geographies only and every listed geography other than
    Global has a record for the year, that number is the number of
    distinct listed geographies other than Global. *)
Theorem C7_truncation (data : option ComparisonData) (year topN : Z) :
  0 <= topN ->
  Z.of_nat (length (getTopRegionsByMarketValue data year topN)) <= topN
  /\ Z.of_nat (length (getTopRegionsByMarketValue data year topN))
     = Z.min topN (Z.of_nat (distinct_geographies (records_of data)))
  /\ (forall all,
        (forall g, In g all -> g <> "Global" ->
                   has_record_for_year (records_of data) year g) ->
        (forall r, In r (records_of data) -> In (geography r) all) ->
        Z.of_nat (length (getTopRegionsByMarketValue data year topN))
        = Z.min topN
            (Z.of_nat (length (nodup string_dec (filter not_global all))))).
Proof.
  intros Hn. rewrite getTopRegionsByMarketValue_records.
  pose proof (value_ranking_length (records_of data) year topN Hn) as H.
  split; [lia|]. split; [exact H|].
  intros all Hall Hrec. rewrite H.
  rewrite (distinct_geographies_listed _ year all Hall Hrec). reflexivity.
Qed.

Lemma C7_truncation_witness :
  0 <= 2
  /\ Z.of_nat (length (getTopRegionsByMarketValue (Some growth_example) 2024 2)) <= 2
  /\ Z.of_nat (length (getTopRegionsByMarketValue (Some growth_example) 2024 2))
     = Z.min 2 (Z.of_nat (distinct_geographies (records_of (Some growth_example))))
  /\ Z.of_nat (length (getTopRegionsByMarketValue (Some growth_example) 2024 2))
     = Z.min 2
         (Z.of_nat (length (nodup string_dec
                              (filter not_global ["Global"; "A"; "B"; "C"])))).
Proof.
  split; [lia|].
  destruct (C7_truncation (Some growth_example) 2024 2 ltac:(lia))
    as (H1 & H2 & H3).
  split; [exact H1|]. split; [exact H2|]. apply H3.
  - intros g Hg Hne. simpl in Hg.
    destruct Hg as [<- | [<- | [<- | [<- | []]]]]; [congruence | | |].
    + exists (record "A" [(2024, Js.Num 10)] (Some (Js.Num 4))),
        [(2024, Js.Num 10)], (Js.Num 10).
      simpl. tauto.
    + exists (record "B" [(2024, Js.Num 20)] (Some (Js.Num 8))),
        [(2024, Js.Num 20)], (Js.Num 20).
      simpl. tauto.
    + exists (record "C" [(2024, Js.Num 30)] None),
        [(2024, Js.Num 30)], (Js.Num 30).
      simpl. tauto.
  - intros r Hr. simpl in Hr.
    repeat (destruct Hr as [<- | Hr]; [simpl; tauto|]). destruct Hr.
Defined.



(** C9.  On an absent dataset each builder returns exactly [viewMode],
    [yearRange] and [dataType]: the year range is [2024, 2028] for Top
    Market and [2024, 2032] for Growth Leaders and Emerging Markets, and
    no geographies, segments or segment type is set. *)
Theorem C9_absent_dataset_minimal_config :
  createTopMarketFilters None
  = inr {| FilterState.viewMode := Some "geography-mode";
           FilterState.geographies := None;
           FilterState.segments := None;
           FilterState.segmentType := None;
           FilterState.yearRange := Some (2024, 2028);
           FilterState.dataType := Some "value" |}
  /\ createGrowthLeadersFilters None
     = inr {| FilterState.viewMode := Some "geography-mode";
              FilterState.geographies := None;
              FilterState.segments := None;
              FilterState.segmentType := None;
              FilterState.yearRange := Some (2024, 2032);
              FilterState.dataType := Some "value" |}
  /\ createEmergingMarketsFilters None
     = inr {| FilterState.viewMode := Some "geography-mode";
              FilterState.geographies := None;
              FilterState.segments := None;
              FilterState.segmentType := None;
              FilterState.yearRange := Some (2024, 2032);
              FilterState.dataType := Some "value" |}.
Proof. repeat split; reflexivity. Qed.

(** C10.  For every dataset and every [topN], [getTopRegionsByCAGR] and
    [getTopCountriesByCAGR] return the same sequence. *)
Theorem C10_regions_countries_same_ranking
  (data : option ComparisonData) (topN : Z) :
  getTopRegionsByCAGR data topN = getTopCountriesByCAGR data topN.
Proof.
  rewrite getTopRegionsByCAGR_records, getTopCountriesByCAGR_records.
  reflexivity.
Qed.

(** ** Further facts about the rankings *)

Lemma NoDup_firstn {A : Type} (k : nat) (l : list A) :
  NoDup l -> NoDup (firstn k l).
Proof.
  intros H. rewrite <- (firstn_skipn k l) in H.
  eapply NoDup_app_remove_r. exact H.
Qed.

Lemma slice0_prefix {A : Type} (l : list A) (m n : Z) :
  0 <= m <= n -> Js.slice0 l m = firstn (Z.to_nat m) (Js.slice0 l n).
Proof.
  intros H. rewrite !slice0_nonneg by lia. rewrite firstn_firstn.
  f_equal. lia.
Qed.


Lemma slice0_all {A : Type} (l : list A) (n : Z) :
  Z.of_nat (length l) <= n -> Js.slice0 l n = l.
Proof.
  intros H. rewrite slice0_nonneg by lia. apply firstn_all2. lia.
Qed.

Lemma ranking_NoDup {V : Type} (cmp : string * V -> string * V -> comparison)
  (entries : list (string * V)) (n : Z) :
  NoDup (map fst entries) ->
  NoDup (map fst (Js.slice0 (Js.sort cmp entries) n)).
Proof.
  intros H. destruct (slice0_firstn (Js.sort cmp entries) n) as [k ->].
  rewrite <- firstn_map. apply NoDup_firstn.
  eapply Permutation_NoDup; [|exact H].
  apply Permutation_map, Permutation_sym, sort_perm.
Qed.


Lemma totals_NoDup (year : Z) (records : list DataRecord) :
  NoDup (map fst (fold_left (add_total year) records [])).
Proof.
  fold (Js.keys (fold_left (add_total year) records [])).
  rewrite totals_keys. apply first_seen_NoDup.
Qed.

Lemma totals_complete (year : Z) (records : list DataRecord) (g : string) :
  g <> "Global" -> In g (map geography records) ->
  exists v, In (g, v) (fold_left (add_total year) records []).
Proof.
  intros Hg Hin.
  assert (Hk : In g (Js.keys (fold_left (add_total year) records []))).
  { rewrite totals_keys, first_seen_In, filter_In, not_global_true.
    simpl. tauto. }
  unfold Js.keys in Hk. apply in_map_iff in Hk.
  destruct Hk as ([g' v] & E & H). simpl in E. subst g'. eauto.
Qed.

Lemma totals_length (year : Z) (records : list DataRecord) :
  length (fold_left (add_total year) records []) = distinct_geographies records.
Proof.
  unfold distinct_geographies.
  rewrite <- first_seen_length_nodup, <- (totals_keys year).
  unfold Js.keys. rewrite length_map. reflexivity.
Qed.

Lemma add_total_skips_global (year : Z) (records : list DataRecord)
  (m : Js.Map Q) :
  fold_left (add_total year)
    (filter (fun r => not_global (geography r)) records) m
  = fold_left (add_total year) records m.
Proof.
  revert m. induction records as [|r records IH]; intros m; simpl.
  - reflexivity.
  - unfold not_global at 1.
    destruct (String.eqb (geography r) "Global") eqn:E; simpl.
    + assert (Hskip : add_total year m r = m)
        by (unfold add_total; rewrite E; reflexivity).
      rewrite Hskip. apply IH.
    + apply IH.
Qed.

Lemma add_cagr_skips_global (records : list DataRecord) (m : Js.Map (list Q)) :
  fold_left add_cagr (filter (fun r => not_global (geography r)) records) m
  = fold_left add_cagr records m.
Proof.
  revert m. induction records as [|r records IH]; intros m; simpl.
  - reflexivity.
  - unfold not_global at 1.
    destruct (String.eqb (geography r) "Global") eqn:E; simpl.
    + assert (Hskip : add_cagr m r = m)
        by (unfold add_cagr; rewrite E; reflexivity).
      rewrite Hskip. apply IH.
    + apply IH.
Qed.

Lemma cagr_group_keys_filter (records : list DataRecord) :
  group_keys cagr_key records =
  filter not_global (map geography (filter has_valid_cagr records)).
Proof.
  induction records as [|r records IH]; simpl; [reflexivity|].
  unfold cagr_key at 1, has_valid_cagr at 1.
  destruct (Js.valid_number (cagr r)); simpl.
  - unfold not_global at 1.
    destruct (String.eqb (geography r) "Global"); simpl; rewrite IH;
      reflexivity.
  - destruct (String.eqb (geography r) "Global"); simpl; exact IH.
Qed.

Lemma cagrs_NoDup (records : list DataRecord) :
  NoDup (map fst (map average_entry (fold_left add_cagr records []))).
Proof.
  rewrite average_entry_fst, cagrs_keys. apply first_seen_NoDup.
Qed.

Lemma cagrs_length (records : list DataRecord) :
  length (map average_entry (fold_left add_cagr records []))
  = distinct_valid_geographies records.
Proof.
  unfold distinct_valid_geographies.
  rewrite <- first_seen_length_nodup, <- cagr_group_keys_filter, <- cagrs_keys.
  unfold Js.keys. rewrite !length_map. reflexivity.
Qed.




(** ** Further properties of the rankings *)



(** X2.  For [topN >= 0], [getTopCountriesByCAGR] returns exactly
    min(topN, number of distinct geographies other than Global that have
    at least one valid CAGR) names. *)
Theorem X2_cagr_ranking_length (data : option ComparisonData) (topN : Z) :
  0 <= topN ->
  Z.of_nat (length (getTopCountriesByCAGR data topN))
  = Z.min topN (Z.of_nat (distinct_valid_geographies (records_of data))).
Proof.
  intros Hn. rewrite getTopCountriesByCAGR_records. unfold cagr_ranking.
  rewrite length_map, slice0_length, sort_length, cagrs_length by exact Hn.
  reflexivity.
Qed.

Lemma X2_cagr_ranking_length_witness :
  0 <= 5
  /\ Z.of_nat (length (getTopCountriesByCAGR (Some growth_example) 5))
     = Z.min 5
         (Z.of_nat (distinct_valid_geographies
                      (records_of (Some growth_example)))).
Proof.
  split; [lia|].
  apply (X2_cagr_ranking_length (Some growth_example) 5). lia.
Defined.

(** X3.  No ranking returns a geography twice, however many records the
    geography has. *)
Theorem X3_rankings_without_duplicates
  (data : option ComparisonData) (year topN : Z) :
  NoDup (getTopRegionsByMarketValue data year topN)
  /\ NoDup (getTopRegionsByCAGR data topN)
  /\ NoDup (getTopCountriesByCAGR data topN).
Proof.
  rewrite getTopRegionsByMarketValue_records, getTopRegionsByCAGR_records,
    getTopCountriesByCAGR_records.
  split; [|split].
  - apply ranking_NoDup, totals_NoDup.
  - apply ranking_NoDup, cagrs_NoDup.
  - apply ranking_NoDup, cagrs_NoDup.
Qed.

(** X4.  Every geography a ranking returns is the geography of a scanned
    record, and for the CAGR rankings of a record with a valid CAGR: the
    rankings do not consult [all_geographies]. *)
Theorem X4_ranked_geographies_have_records
  (data : option ComparisonData) (year topN : Z) (g : string) :
  (In g (getTopRegionsByMarketValue data year topN) ->
   exists r, In r (records_of data) /\ geography r = g)
  /\ (In g (getTopRegionsByCAGR data topN) ->
      exists r, In r (records_of data) /\ geography r = g
                /\ has_valid_cagr r = true)
  /\ (In g (getTopCountriesByCAGR data topN) ->
      exists r, In r (records_of data) /\ geography r = g
                /\ has_valid_cagr r = true).
Proof.
  rewrite getTopRegionsByMarketValue_records, getTopRegionsByCAGR_records,
    getTopCountriesByCAGR_records.
  assert (Hc : In g (cagr_ranking (records_of data) topN) ->
               exists r, In r (records_of data) /\ geography r = g
                         /\ has_valid_cagr r = true).
  { intros H. apply cagr_ranking_In in H. destruct H as [Hg Hv].
    assert (Hk : In g (group_keys cagr_key (records_of data)))
      by (apply cagr_group_keys_In; tauto).
    rewrite cagr_group_keys_filter, filter_In, in_map_iff in Hk.
    destruct Hk as [(r & E & Hr) _]. apply filter_In in Hr.
    exists r. tauto. }
  split; [|split; exact Hc].
  intros H. apply value_ranking_In in H. destruct H as [_ H].
  apply in_map_iff in H. destruct H as (r & E & Hr). eauto.
Qed.

Lemma X4_ranked_geographies_witness :
  exists r,
    In r (records_of (Some cagr_tie_example)) /\ geography r = "North"
    /\ has_valid_cagr r = true.
Proof.
  apply (proj1 (proj2 (X4_ranked_geographies_have_records
                         (Some cagr_tie_example) 2024 3 "North"))).
  simpl. tauto.
Defined.





(** X7.  Asking for fewer gives a prefix: for [0 <= m <= n] the ranking
    with [topN = m] is the first [m] names of the ranking with
    [topN = n], by value and by CAGR alike. *)
Theorem X7_smaller_topN_is_prefix
  (data : option ComparisonData) (year m n : Z) :
  0 <= m <= n ->
  getTopRegionsByMarketValue data year m
  = firstn (Z.to_nat m) (getTopRegionsByMarketValue data year n)
  /\ getTopRegionsByCAGR data m
     = firstn (Z.to_nat m) (getTopRegionsByCAGR data n)
  /\ getTopCountriesByCAGR data m
     = firstn (Z.to_nat m) (getTopCountriesByCAGR data n).
Proof.
  intros H.
  rewrite !getTopRegionsByMarketValue_records, !getTopRegionsByCAGR_records,
    ?getTopCountriesByCAGR_records.
  unfold value_ranking, cagr_ranking.
  rewrite !firstn_map, <- !(slice0_prefix _ m n) by exact H.
  repeat split.
Qed.

Lemma X7_smaller_topN_witness :
  getTopRegionsByMarketValue (Some cagr_tie_example) 2024 1
  = firstn 1 (getTopRegionsByMarketValue (Some cagr_tie_example) 2024 3).
Proof.
  apply (X7_smaller_topN_is_prefix (Some cagr_tie_example) 2024 1 3). lia.
Defined.



(** X9.  When [topN] is at least the number of distinct geographies other
    than Global among the records, [getTopRegionsByMarketValue] returns
    every such geography, also one whose records carry no value for the
    year or no time series at all (its total is 0). *)
Theorem X9_large_topN_returns_every_geography
  (data : option ComparisonData) (year topN : Z) (g : string) :
  Z.of_nat (distinct_geographies (records_of data)) <= topN ->
  (In g (getTopRegionsByMarketValue data year topN)
   <-> g <> "Global" /\ In g (map geography (records_of data))).
Proof.
  intros H. rewrite getTopRegionsByMarketValue_records. split.
  - apply value_ranking_In.
  - intros [Hg Hin]. unfold value_ranking.
    rewrite slice0_all by (rewrite sort_length, totals_length; exact H).
    destruct (totals_complete year _ _ Hg Hin) as [v Hv].
    apply in_map_iff. exists (g, v). split; [reflexivity|].
    apply sort_In. exact Hv.
Qed.

Lemma X9_large_topN_witness :
  In "North" (getTopRegionsByMarketValue (Some cagr_tie_example) 2024 3)
  <-> "North" <> "Global"
      /\ In "North" (map geography (records_of (Some cagr_tie_example))).
Proof.
  apply (X9_large_topN_returns_every_geography (Some cagr_tie_example) 2024 3).
  vm_compute. discriminate.
Defined.

(** X10.  The records of the roll-up have no influence: a dataset whose
    records are those of another without the Global ones gets the same
    three rankings. *)
Theorem X10_global_records_do_not_matter
  (data data' : option ComparisonData) (year topN : Z) :
  records_of data'
  = filter (fun r => not_global (geography r)) (records_of data) ->
  getTopRegionsByMarketValue data' year topN
  = getTopRegionsByMarketValue data year topN
  /\ getTopRegionsByCAGR data' topN = getTopRegionsByCAGR data topN
  /\ getTopCountriesByCAGR data' topN = getTopCountriesByCAGR data topN.
Proof.
  intros H.
  rewrite !getTopRegionsByMarketValue_records, !getTopRegionsByCAGR_records,
    ?getTopCountriesByCAGR_records.
  unfold value_ranking, cagr_ranking.
  rewrite H, add_total_skips_global, add_cagr_skips_global. repeat split.
Qed.

Lemma X10_global_records_witness :
  getTopRegionsByMarketValue (Some cagr_tie_no_global_example) 2024 3
  = getTopRegionsByMarketValue (Some cagr_tie_example) 2024 3
  /\ getTopRegionsByCAGR (Some cagr_tie_no_global_example) 3
     = getTopRegionsByCAGR (Some cagr_tie_example) 3
  /\ getTopCountriesByCAGR (Some cagr_tie_no_global_example) 3
     = getTopCountriesByCAGR (Some cagr_tie_example) 3.
Proof.
  apply (X10_global_records_do_not_matter
           (Some cagr_tie_example) (Some cagr_tie_no_global_example) 2024 3).
  reflexivity.
Defined.

(** ** Further facts about the preset builders *)

Lemma createTopMarketFilters_build d :
  createTopMarketFilters (Some d)
  = build d (getTopRegionsByMarketValue (Some d) 2024 3) 3 2028.
Proof. reflexivity. Qed.

Lemma createGrowthLeadersFilters_build d :
  createGrowthLeadersFilters (Some d)
  = build d (getTopRegionsByCAGR (Some d) 2) 2 2032.
Proof. reflexivity. Qed.

Lemma createEmergingMarketsFilters_build d :
  createEmergingMarketsFilters (Some d)
  = build d (getTopCountriesByCAGR (Some d) 5) 5 2032.
Proof. reflexivity. Qed.

Lemma build_first_type d dims t dim rest ranked n yearEnd :
  dimensions d = Some dims ->
  segments dims = Some ((t, dim) :: rest) ->
  t <> "" ->
  exists fl,
    getFirstLevelSegments (Some d) t = inr fl
    /\ build d ranked n yearEnd
       = inr (preset yearEnd (fallback_geographies d ranked n)
                (or_if_empty fl (firstn 3 (items_of dim))) t).
Proof.
  intros Hd Hs Ht.
  destruct (getFirstLevelSegments_total d dims _ t Hd Hs) as [fl Hfl].
  exists fl. split; [exact Hfl|].
  assert (Htt : truthy_type (Some t) = Some t).
  { unfold truthy_type. destruct t; [congruence | reflexivity]. }
  unfold build, getFirstSegmentType. rewrite Hd. simpl. rewrite Hs. simpl.
  unfold first_level_of. rewrite Htt, Hfl. simpl.
  unfold segment_type_or_default, fallback_segments, segment_dimension_of.
  rewrite Htt, Hd, Hs. simpl. rewrite String.eqb_refl.
  fold (items_of dim). rewrite slice0_nonneg by lia.
  destruct fl; reflexivity.
Qed.

Lemma build_no_type d dims ranked n yearEnd :
  dimensions d = Some dims ->
  segments dims = None \/ segments dims = Some []
  \/ (exists dim rest, segments dims = Some (("", dim) :: rest)) ->
  build d ranked n yearEnd
  = inr (preset yearEnd (fallback_geographies d ranked n) [] "By Drug Class").
Proof.
  intros Hd H. unfold build, getFirstSegmentType. rewrite Hd. simpl.
  destruct H as [Hs | [Hs | (dim & rest & Hs)]]; rewrite Hs; reflexivity.
Qed.

Lemma cagr_ranking_prefix (records : list DataRecord) (m n : Z) :
  0 <= m <= n ->
  cagr_ranking records m = firstn (Z.to_nat m) (cagr_ranking records n).
Proof.
  intros H. unfold cagr_ranking.
  rewrite firstn_map, <- (slice0_prefix _ m n) by exact H. reflexivity.
Qed.

Lemma fallback_geographies_prefix d (ranked : list string) (m n : Z) :
  0 < m <= n ->
  fallback_geographies d (firstn (Z.to_nat m) ranked) m
  = firstn (Z.to_nat m) (fallback_geographies d ranked n).
Proof.
  intros H. unfold fallback_geographies. destruct ranked as [|g ranked].
  - rewrite firstn_nil. destruct (all_geographies_of d) as [all|].
    + apply slice0_prefix. lia.
    + rewrite firstn_nil. reflexivity.
  - destruct (Z.to_nat m) as [|k] eqn:E; [lia|]. reflexivity.
Qed.

Lemma slice0_length_le {A : Type} (l : list A) (n : Z) :
  0 <= n -> Z.of_nat (length (Js.slice0 l n)) <= n.
Proof. intros H. rewrite slice0_length by exact H. lia. Qed.

Lemma fallback_geographies_length d (ranked : list string) (n : Z) :
  0 <= n -> Z.of_nat (length ranked) <= n ->
  Z.of_nat (length (fallback_geographies d ranked n)) <= n.
Proof.
  intros Hn Hr. unfold fallback_geographies.
  destruct ranked; [|exact Hr].
  destruct (all_geographies_of d); [|exact Hr].
  apply slice0_length_le. exact Hn.
Qed.

Lemma fallback_geographies_In d (ranked : list string) (n : Z) (g : string) :
  In g (fallback_geographies d ranked n) ->
  In g ranked
  \/ exists all, all_geographies_of d = Some all /\ In g all.
Proof.
  unfold fallback_geographies. destruct ranked; [|auto].
  destruct (all_geographies_of d) as [all|]; [|auto].
  intros H. apply slice0_In, filter_In in H. right. exists all. tauto.
Qed.

Lemma build_geographies d ranked n yearEnd cfg :
  build d ranked n yearEnd = inr cfg ->
  FilterState.geographies cfg = Some (fallback_geographies d ranked n).
Proof.
  unfold build. intros H. open_builder H. subst cfg. reflexivity.
Qed.

Lemma returned_geographies_build d ranked n yearEnd (g : string) :
  In g (returned_geographies (build d ranked n yearEnd)) ->
  In g (fallback_geographies d ranked n).
Proof.
  unfold returned_geographies.
  destruct (build d ranked n yearEnd) as [e|cfg] eqn:E; [simpl; tauto|].
  rewrite (build_geographies _ _ _ _ _ E). tauto.
Qed.

Lemma returned_geographies_length d ranked n yearEnd :
  0 <= n -> Z.of_nat (length ranked) <= n ->
  Z.of_nat (length (returned_geographies (build d ranked n yearEnd))) <= n.
Proof.
  intros Hn Hr. unfold returned_geographies.
  destruct (build d ranked n yearEnd) as [e|cfg] eqn:E; [simpl; lia|].
  rewrite (build_geographies _ _ _ _ _ E).
  apply fallback_geographies_length; assumption.
Qed.

Lemma cagr_ranking_length_le (records : list DataRecord) (n : Z) :
  0 <= n -> Z.of_nat (length (cagr_ranking records n)) <= n.
Proof.
  intros H. unfold cagr_ranking. rewrite length_map.
  apply slice0_length_le. exact H.
Qed.

(** ** Further properties of the preset builders and the resolver *)

(** X11.  When [dimensions.segments] has a first key [t] that is not the
    empty string, [createTopMarketFilters] returns [segmentType = t], and
    as segments the first-level segments of [t], or, when there are none,
    the first 3 entries of the items of [t], children included. *)
Theorem X11_builder_segments_of_first_type
  (d : ComparisonData) (dims : Dimensions) (t : string)
  (dim : SegmentDimension) (rest : list (string * SegmentDimension)) :
  dimensions d = Some dims ->
  segments dims = Some ((t, dim) :: rest) ->
  t <> "" ->
  exists fl cfg,
    getFirstLevelSegments (Some d) t = inr fl
    /\ createTopMarketFilters (Some d) = inr cfg
    /\ FilterState.segmentType cfg = Some t
    /\ FilterState.segments cfg
       = Some (or_if_empty fl (firstn 3 (items_of dim))).
Proof.
  intros Hd Hs Ht. rewrite createTopMarketFilters_build.
  destruct (build_first_type d dims t dim rest
              (getTopRegionsByMarketValue (Some d) 2024 3) 3 2028 Hd Hs Ht)
    as (fl & Hfl & ->).
  exists fl. eexists. repeat split. exact Hfl.
Qed.

Lemma X11_builder_segments_witness :
  exists fl cfg,
    getFirstLevelSegments (Some cagr_tie_example) "By Type" = inr fl
    /\ createTopMarketFilters (Some cagr_tie_example) = inr cfg
    /\ FilterState.segmentType cfg = Some "By Type"
    /\ FilterState.segments cfg
       = Some (or_if_empty fl
                 (firstn 3
                    (items_of {| items := Some ["S1"; "S2"; "S3"; "S4"];
                                 hierarchy := None |}))).
Proof.
  apply (X11_builder_segments_of_first_type cagr_tie_example
           {| geographies :=
                Some {| all_geographies :=
                          Some ["Global"; "East"; "West"; "North"] |};
              segments :=
                Some [("By Type",
                       {| items := Some ["S1"; "S2"; "S3"; "S4"];
                          hierarchy := None |})] |}
           "By Type" _ []).
  - reflexivity.
  - reflexivity.
  - discriminate.
Defined.

(** X12.  When [dimensions.segments] is absent, has no key, or has the
    empty string as first key, [createEmergingMarketsFilters] returns the
    literal segment type "By Drug Class" and no segments. *)
Theorem X12_builder_default_segment_type
  (d : ComparisonData) (dims : Dimensions) :
  dimensions d = Some dims ->
  segments dims = None \/ segments dims = Some []
  \/ (exists dim rest, segments dims = Some (("", dim) :: rest)) ->
  exists cfg,
    createEmergingMarketsFilters (Some d) = inr cfg
    /\ FilterState.segmentType cfg = Some "By Drug Class"
    /\ FilterState.segments cfg = Some [].
Proof.
  intros Hd Hs. rewrite createEmergingMarketsFilters_build.
  rewrite (build_no_type d dims _ _ _ Hd Hs).
  eexists. repeat split.
Qed.

Lemma X12_builder_default_segment_type_witness :
  exists cfg,
    createEmergingMarketsFilters (Some no_segments_example) = inr cfg
    /\ FilterState.segmentType cfg = Some "By Drug Class"
    /\ FilterState.segments cfg = Some [].
Proof.
  apply (X12_builder_default_segment_type no_segments_example
           {| geographies :=
                Some {| all_geographies := Some ["Global"; "A"] |};
              segments := None |}).
  - reflexivity.
  - left. reflexivity.
Defined.

(** X13.  On one dataset the three builders throw together or return
    together, and then with the same segments and segment type; the
    geographies of Growth Leaders are the first 2 of those of Emerging
    Markets. *)
Theorem X13_builders_agree (d : ComparisonData) :
  match createTopMarketFilters (Some d),
        createGrowthLeadersFilters (Some d),
        createEmergingMarketsFilters (Some d) with
  | inr top, inr growth, inr emerging =>
      FilterState.segments growth = FilterState.segments top
      /\ FilterState.segments emerging = FilterState.segments top
      /\ FilterState.segmentType growth = FilterState.segmentType top
      /\ FilterState.segmentType emerging = FilterState.segmentType top
      /\ FilterState.geographies growth
         = option_map (firstn 2) (FilterState.geographies emerging)
  | inl _, inl _, inl _ => True
  | _, _, _ => False
  end.
Proof.
  rewrite createTopMarketFilters_build, createGrowthLeadersFilters_build,
    createEmergingMarketsFilters_build.
  rewrite getTopRegionsByCAGR_records, ?getTopCountriesByCAGR_records.
  rewrite (cagr_ranking_prefix _ 2 5) by lia.
  generalize (getTopRegionsByMarketValue (Some d) 2024 3) as top3.
  generalize (cagr_ranking (records_of (Some d)) 5) as top5.
  intros top5 top3. unfold build.
  destruct (getFirstSegmentType (Some d)) as [e|ft]; simpl; [exact I|].
  destruct (first_level_of d ft) as [e|fl]; simpl; [exact I|].
  repeat split. f_equal.
  apply (fallback_geographies_prefix d top5 2 5). lia.
Qed.

(** X14.  No builder returns more geographies than its target count: at
    most 3 for Top Market, 2 for Growth Leaders and 5 for Emerging
    Markets, ranked or substituted. *)
Theorem X14_builder_geographies_bounded (data : option ComparisonData) :
  (length (returned_geographies (createTopMarketFilters data)) <= 3)%nat
  /\ (length (returned_geographies (createGrowthLeadersFilters data)) <= 2)%nat
  /\ (length (returned_geographies (createEmergingMarketsFilters data)) <= 5)%nat.
Proof.
  destruct data as [d|]; [|simpl; lia].
  rewrite createTopMarketFilters_build, createGrowthLeadersFilters_build,
    createEmergingMarketsFilters_build.
  pose proof (returned_geographies_length d
                (getTopRegionsByMarketValue (Some d) 2024 3) 3 2028) as H1.
  pose proof (returned_geographies_length d
                (getTopRegionsByCAGR (Some d) 2) 2 2032) as H2.
  pose proof (returned_geographies_length d
                (getTopCountriesByCAGR (Some d) 5) 5 2032) as H3.
  rewrite getTopRegionsByMarketValue_records in H1.
  rewrite getTopRegionsByCAGR_records in H2.
  rewrite getTopCountriesByCAGR_records in H3.
  rewrite getTopRegionsByMarketValue_records, getTopRegionsByCAGR_records,
    ?getTopCountriesByCAGR_records.
  pose proof (value_ranking_length (records_of (Some d)) 2024 3) as L1.
  pose proof (cagr_ranking_length_le (records_of (Some d)) 2) as L2.
  pose proof (cagr_ranking_length_le (records_of (Some d)) 5) as L3.
  lia.
Qed.

(** X15.  Every geography a builder returns is the geography of a scanned
    record (when ranked) or an entry of [all_geographies] (when
    substituted). *)
Theorem X15_builder_geographies_from_input
  (data : option ComparisonData) (g : string) :
  In g (returned_geographies (createTopMarketFilters data))
  \/ In g (returned_geographies (createGrowthLeadersFilters data))
  \/ In g (returned_geographies (createEmergingMarketsFilters data)) ->
  (exists r, In r (records_of data) /\ geography r = g)
  \/ (exists d all,
        data = Some d /\ all_geographies_of d = Some all /\ In g all).
Proof.
  destruct data as [d|]; [|simpl; tauto].
  rewrite createTopMarketFilters_build, createGrowthLeadersFilters_build,
    createEmergingMarketsFilters_build.
  intros [H | [H | H]]; apply returned_geographies_build,
    fallback_geographies_In in H;
    (destruct H as [H | (all & Ha & Hin)]; [left | right; eauto]).
  - rewrite getTopRegionsByMarketValue_records in H.
    apply value_ranking_In in H. destruct H as [_ H].
    apply in_map_iff in H. destruct H as (r & E & Hr). eauto.
  - rewrite getTopRegionsByCAGR_records in H.
    apply cagr_ranking_In in H. destruct H as [_ H].
    apply valid_cagrs_In, in_map_iff in H. destruct H as (r & E & Hr). eauto.
  - rewrite getTopCountriesByCAGR_records in H.
    apply cagr_ranking_In in H. destruct H as [_ H].
    apply valid_cagrs_In, in_map_iff in H. destruct H as (r & E & Hr). eauto.
Qed.

Lemma X15_builder_geographies_witness :
  (exists r, In r (records_of (Some fallback_example)) /\ geography r = "B")
  \/ (exists d all,
        Some fallback_example = Some d
        /\ all_geographies_of d = Some all /\ In "B" all).
Proof.
  apply (X15_builder_geographies_from_input (Some fallback_example) "B").
  left. simpl. tauto.
Defined.

(** X16.  [getFirstLevelSegments] never returns a segment that some
    parent lists as a child, nor a key of the hierarchy whose list of
    children is empty, even when that key is among the items; whatever it
    returns is a key of the hierarchy or an item. *)
Theorem X16_first_level_excludes_children_and_childless_keys
  (d : ComparisonData) (dims : Dimensions)
  (segs : list (string * SegmentDimension)) (dim : SegmentDimension)
  (ty : string) (out : list string) (s : string) :
  dimensions d = Some dims ->
  segments dims = Some segs ->
  Js.lookup segs ty = Some dim ->
  getFirstLevelSegments (Some d) ty = inr out ->
  In s out ->
  ~ is_child (hierarchy_of dim) s
  /\ Js.lookup (hierarchy_of dim) s <> Some []
  /\ (In s (Js.keys (hierarchy_of dim)) \/ In s (items_of dim)).
Proof.
  intros Hd Hs Hl Hout Hin.
  destruct (getFirstLevelSegments_found d dims segs dim ty Hd Hs Hl)
    as (out' & E & Hmem & _).
  rewrite Hout in E. injection E as <-.
  apply Hmem in Hin. unfold first_level, is_parent in Hin.
  destruct Hin as [[(Hk & cs & Hc & Hne) Hch] | (Hi & Hk & Hch)].
  - split; [exact Hch|]. split; [congruence | left; exact Hk].
  - split; [exact Hch|]. split; [|right; exact Hi].
    intros Hc. apply Hk. apply lookup_keys. eauto.
Qed.

Lemma X16_first_level_excludes_witness :
  ~ is_child [("X", ["Y"; "Z"])] "W"
  /\ Js.lookup [("X", ["Y"; "Z"])] "W" <> Some []
  /\ (In "W" (Js.keys [("X", ["Y"; "Z"])]) \/ In "W" ["X"; "Y"; "Z"; "W"]).
Proof.
  apply (X16_first_level_excludes_children_and_childless_keys
           hierarchy_example
           {| geographies := Some {| all_geographies := Some ["Global"; "A"] |};
              segments :=
                Some [("By Drug Class",
                       {| items := Some ["X"; "Y"; "Z"; "W"];
                          hierarchy := Some [("X", ["Y"; "Z"])] |})] |}
           [("By Drug Class",
             {| items := Some ["X"; "Y"; "Z"; "W"];
                hierarchy := Some [("X", ["Y"; "Z"])] |})]
           {| items := Some ["X"; "Y"; "Z"; "W"];
              hierarchy := Some [("X", ["Y"; "Z"])] |}
           "By Drug Class" ["W"; "X"] "W").
  - reflexivity.
  - reflexivity.
  - reflexivity.
  - reflexivity.
  - simpl. tauto.
Defined.

(** ** Properties of the dashboard page's effects *)


Lemma tab_of_lookup (c t : string) :
  Js.lookup Page.chartIdToTab c = Some t -> Page.tab_of (Some c) = Some t.
Proof.
  intros H. unfold Page.tab_of. destruct c; [discriminate H | exact H].
Qed.


(** X17.  The chart-group effect settles in one step: run again on the
    group it selected, it selects nothing.  With intelligence data only
    it leaves the customer-intelligence group selected, with market data
    only it never does, and with both kinds of data or none it switches
    nothing. *)
Theorem X17_chart_group_effect_settles
  (selectedChartGroup : string) (hasMarketData hasIntelligenceData : bool) :
  Page.chartGroupEffect
    (Page.after_chartGroupEffect selectedChartGroup
       hasMarketData hasIntelligenceData)
    hasMarketData hasIntelligenceData = None
  /\ Page.after_chartGroupEffect selectedChartGroup false true
     = Page.customer_intelligence
  /\ Page.after_chartGroupEffect selectedChartGroup true false
     <> Page.customer_intelligence
  /\ Page.chartGroupEffect selectedChartGroup true true = None
  /\ Page.chartGroupEffect selectedChartGroup false false = None.
Proof.
  unfold Page.after_chartGroupEffect, Page.chartGroupEffect.
  destruct (String.eqb selectedChartGroup Page.customer_intelligence) eqn:E.
  - apply String.eqb_eq in E. subst selectedChartGroup.
    destruct hasMarketData, hasIntelligenceData; simpl;
      repeat split; try reflexivity; discriminate.
  - destruct hasMarketData, hasIntelligenceData; simpl; rewrite ?E; simpl;
      repeat split; try reflexivity;
      intros H; rewrite H in E; discriminate.
Qed.

(** X18.  The proposition-tab effect settles in one step.  When exactly
    one proposition has rows it leaves that proposition's tab active;
    when two or three have rows, or none, it changes nothing. *)
Theorem X18_proposition_tab_effect_settles
  (hasProp1 hasProp2 hasProp3 : bool) (tab : Page.PropositionTab) :
  Page.propositionTabEffect hasProp1 hasProp2 hasProp3
    (Page.after_propositionTabEffect hasProp1 hasProp2 hasProp3 tab) = None
  /\ Page.after_propositionTabEffect true false false tab = Page.prop1
  /\ Page.after_propositionTabEffect false true false tab = Page.prop2
  /\ Page.after_propositionTabEffect false false true tab = Page.prop3
  /\ Page.propositionTabEffect true true hasProp3 tab = None
  /\ Page.propositionTabEffect true hasProp2 true tab = None
  /\ Page.propositionTabEffect hasProp1 true true tab = None
  /\ Page.propositionTabEffect false false false tab = None.
Proof.
  destruct hasProp1, hasProp2, hasProp3, tab; repeat split; reflexivity.
Qed.





(** X21.  With intelligence data only, the active-tab effect has no
    resting state while the first chart of the group maps to a tab other
    than customer-intelligence: from the customer-intelligence tab it
    selects that tab, and from that tab it selects customer-intelligence
    again. *)
Theorem X21_active_tab_effect_alternates
  (c t : string) (rest : list string) :
  Js.lookup Page.chartIdToTab c = Some t ->
  t <> Page.customer_intelligence ->
  Page.activeTabEffect Page.customer_intelligence (c :: rest) false true
  = Some t
  /\ Page.activeTabEffect t (c :: rest) false true
     = Some Page.customer_intelligence.
Proof.
  intros Hl Ht. split.
  - unfold Page.activeTabEffect. rewrite String.eqb_refl. simpl.
    apply tab_of_lookup. exact Hl.
  - apply String.eqb_neq in Ht. unfold Page.activeTabEffect.
    rewrite Ht. reflexivity.
Qed.

Lemma X21_active_tab_effect_alternates_witness :
  Page.activeTabEffect Page.customer_intelligence
    ["grouped-bar"; "customer-intelligence"] false true = Some "bar"
  /\ Page.activeTabEffect "bar"
       ["grouped-bar"; "customer-intelligence"] false true
     = Some Page.customer_intelligence.
Proof.
  apply (X21_active_tab_effect_alternates "grouped-bar" "bar"
           ["customer-intelligence"]).
  - reflexivity.
  - discriminate.
Defined.
